(** * LXP class router and teacher edit page

    A shallow embedding of the tRPC class router ([classRouter]) and of the
    server-rendered teacher edit page ([EditTeacherPage]), with the
    properties the specification states about them.

    Conventions of the embedding:
    - the numbers the attendance and performance handlers compute are IEEE
      754 doubles, Rocq's primitive [float]s, with the operations of the
      source in the order of the source; a capacity and the student growth,
      whose arithmetic stays on 0, 1 and 100, are exact rationals ([Qc]);
    - [null] and [undefined] are [None];
    - a thrown error is the [inl] branch of a result, a resolved promise the
      [inr] branch;
    - the ORM (Prisma) is an in-memory store with the documented behaviour of
      the calls the handlers make. *)

From Stdlib Require Import QArith Qcanon Lia Ascii String PrimFloat Uint63.
From stdpp Require Import base list strings gmap sorting.

Open Scope Qc_scope.
Open Scope string_scope.
Open Scope list_scope.

(** ** JavaScript values *)

Abbreviation number := Qc (only parsing).

Definition of_nat (n : nat) : number := Q2Qc (inject_Z (Z.of_nat n)).

Definition hundred : number := of_nat 100.

(** Truthiness of a string: every string but the empty one. *)
Definition truthy (s : string) : bool := negb (bool_decide (s = "")).

(** Truthiness of [string | undefined]. *)
Definition truthy_opt (o : option string) : bool :=
  match o with
  | Some s => truthy s
  | None => false
  end.

(** [x || d] on an optional string. *)
Definition or_default (o : option string) (d : string) : string :=
  match o with
  | Some s => if truthy s then s else d
  | None => d
  end.

(** [s.split(sep)[0]] for a one-character separator. *)
Fixpoint before (sep : ascii) (s : string) : string :=
  match s with
  | EmptyString => EmptyString
  | String c s' => if decide (c = sep) then EmptyString else String c (before sep s')
  end.

(** A length as a double: the integer itself, for every length an array can
    have. *)
Definition integer (n : nat) : float :=
  PrimFloat.of_uint63 (Uint63.of_Z (Z.of_nat n)).

(** [x += 1], [n] times over. *)
Definition count_from (x : float) (n : nat) : float :=
  Nat.iter n (λ v, (v + 1)%float) x.

(** Truthiness of a number: every number but [0], [-0] and [NaN]. *)
Definition truthy_number (x : float) : bool :=
  negb ((x =? 0)%float || PrimFloat.is_nan x).

(** [x || d] on an optional number. *)
Definition number_or (o : option float) (d : float) : float :=
  match o with
  | Some x => if truthy_number x then x else d
  | None => d
  end.

(** The arithmetic mean as the handlers write it: a sum from 0, left to
    right, divided by the number of summands, each step rounded. *)
Definition sum (l : list float) : float := fold_left PrimFloat.add l 0%float.

Definition mean (l : list float) : float := (sum l / integer (length l))%float.

(** ** Errors and results *)

#[local] Set Warnings "-register-all".

Inductive TRPCCode := NOT_FOUND | UNAUTHORIZED | INTERNAL_SERVER_ERROR.

Inductive Exn :=
| TRPCError (code : TRPCCode) (message : string) (cause : option Exn)
| PrismaKnownError (code : string) (message : string)
| OtherError (message : string)
| NotAnError (thrown : string).

Definition isTRPCError (e : Exn) : bool :=
  match e with
  | TRPCError _ _ _ => true
  | _ => false
  end.

(** [error instanceof Error ? error.message : fallback] *)
Definition message_or (fallback : string) (e : Exn) : string :=
  match e with
  | TRPCError _ m _ => m
  | PrismaKnownError _ m => m
  | OtherError m => m
  | NotAnError _ => fallback
  end.

Definition Result (A : Type) : Type := Exn + A.

(** ** Plain objects used as dictionaries

    [{} as Record<string, V>]: own properties in creation order, on top of
    [Object.prototype]. *)

Module JsObject.

Abbreviation t V := (list (string * V)) (only parsing).

(** The property names every plain object inherits. *)
Definition proto_names : list string :=
  [ "constructor"; "__proto__"; "hasOwnProperty"; "isPrototypeOf";
    "propertyIsEnumerable"; "toLocaleString"; "toString"; "valueOf";
    "__defineGetter__"; "__defineSetter__"; "__lookupGetter__";
    "__lookupSetter__" ].

Definition inherited (k : string) : bool := bool_decide (k ∈ proto_names).

Fixpoint own {V} (o : t V) (k : string) : option V :=
  match o with
  | [] => None
  | (k', v) :: o' => if decide (k' = k) then Some v else own o' k
  end.

(** Truthiness of [o[k]] when the own values are objects: an own property,
    or a member of [Object.prototype] (each of them is truthy). *)
Definition has {V} (o : t V) (k : string) : bool :=
  bool_decide (is_Some (own o k)) || inherited k.

(** [o[k] = v] for a name that is not inherited. *)
Fixpoint assign {V} (o : t V) (k : string) (v : V) : t V :=
  match o with
  | [] => [(k, v)]
  | (k', v') :: o' =>
      if decide (k' = k) then (k, v) :: o' else (k', v') :: assign o' k v
  end.

(** [o[k].f = ...]: the object stored under [k] is changed in place. When
    [k] is only inherited the write lands on the inherited object and [o]
    keeps its own properties. *)
Fixpoint modify {V} (o : t V) (k : string) (f : V → V) : t V :=
  match o with
  | [] => []
  | (k', v') :: o' =>
      if decide (k' = k) then (k', f v') :: o' else (k', v') :: modify o' k f
  end.

(** Array indices: canonical decimal numerals below [2^32 - 1]. *)
Definition digit_val (c : ascii) : option N :=
  let n := N_of_ascii c in
  if (48 <=? n)%N && (n <=? 57)%N then Some (n - 48)%N else None.

Fixpoint parse_dec (acc : N) (s : string) : option N :=
  match s with
  | EmptyString => Some acc
  | String c s' =>
      match digit_val c with
      | Some d => parse_dec (acc * 10 + d)%N s'
      | None => None
      end
  end.

Definition array_index (k : string) : option N :=
  match k with
  | EmptyString => None
  | String c rest =>
      if bool_decide (c = "0"%char) && negb (bool_decide (rest = ""))
      then None
      else match parse_dec 0 k with
           | Some n => if (n <? 4294967295)%N then Some n else None
           | None => None
           end
  end.

Definition index_entries {V} (o : t V) : list (N * (string * V)) :=
  omap (λ kv, match array_index kv.1 with
              | Some n => Some (n, kv)
              | None => None
              end) o.

Definition index_le {V} (a b : N * (string * V)) : Prop := (a.1 ≤ b.1)%N.

#[export] Instance index_le_dec {V} (a b : N * (string * V)) :
  Decision (index_le a b) := N.le_dec a.1 b.1.

(** [Object.entries(o)]: array indices first, in ascending order, then the
    other names in creation order. *)
Definition entries {V} (o : t V) : list (string * V) :=
  (merge_sort index_le (index_entries o)).*2
  ++ filter (λ kv, array_index kv.1 = None) o.

(** [Object.values(o)]. *)
Definition values {V} (o : t V) : list V := (entries o).*2.

End JsObject.

(** ** Dates

    A [Date] is represented by its UTC calendar fields, the ones
    [toISOString] prints ([utcMonth] counts from 0 as [getUTCMonth] does). *)

Record Date := mkDate {
  utcFullYear : Z;
  utcMonth : nat;
  utcDate : nat;
  utcHours : nat;
  utcMinutes : nat;
  utcSeconds : nat;
  utcMilliseconds : nat
}.

Definition digit (n : nat) : ascii := ascii_of_nat (48 + n mod 10).

Definition pad2 (n : nat) : string := String (digit (n / 10)) (String (digit n) "").

Definition pad3 (n : nat) : string := String (digit (n / 100)) (pad2 n).

Definition pad4 (n : nat) : string := String (digit (n / 1000)) (pad3 n).

Definition pad6 (n : nat) : string :=
  String (digit (n / 1000 / 100)) (String (digit (n / 1000 / 10)) (pad4 n)).

(** Years 0 to 9999 print with four digits, the others with a sign and six. *)
Definition isoYear (y : Z) : string :=
  if (0 <=? y)%Z && (y <=? 9999)%Z then pad4 (Z.to_nat y)
  else String (if (y <? 0)%Z then "-"%char else "+"%char) (pad6 (Z.to_nat (Z.abs y))).

Definition isoDay (d : Date) : string :=
  isoYear (utcFullYear d) +:+ "-" +:+ pad2 (utcMonth d + 1) +:+ "-" +:+ pad2 (utcDate d).

Definition toISOString (d : Date) : string :=
  isoDay d +:+ "T" +:+ pad2 (utcHours d) +:+ ":" +:+ pad2 (utcMinutes d) +:+ ":"
  +:+ pad2 (utcSeconds d) +:+ "." +:+ pad3 (utcMilliseconds d) +:+ "Z".

(** [date.toISOString().split('T')[0]] *)
Definition dateKey (d : Date) : string := before "T" (toISOString d).

Definition lex (c1 c2 : comparison) : comparison :=
  match c1 with
  | Eq => c2
  | _ => c1
  end.

Definition Date_compare (a b : Date) : comparison :=
  lex (utcFullYear a ?= utcFullYear b)%Z
  (lex (utcMonth a ?= utcMonth b)%nat
  (lex (utcDate a ?= utcDate b)%nat
  (lex (utcHours a ?= utcHours b)%nat
  (lex (utcMinutes a ?= utcMinutes b)%nat
  (lex (utcSeconds a ?= utcSeconds b)%nat
       (utcMilliseconds a ?= utcMilliseconds b)%nat))))).

(** [a <= b] on instants (the [gte] / [lte] of a query). *)
Definition Date_leb (a b : Date) : bool :=
  match Date_compare a b with
  | Gt => false
  | _ => true
  end.

Definition within (startDate endDate d : Date) : bool :=
  Date_leb startDate d && Date_leb d endDate.

(** ** The data model *)

Inductive Status := ACTIVE | INACTIVE | ARCHIVED.

#[export] Instance Status_eq_dec : EqDecision Status.
Proof. solve_decision. Defined.

Record TeacherClass := mkTeacherClass {
  teacherId : string;
  isClassTeacher : bool;
  tc_status : Status
}.

Record Class := mkClass {
  class_id : string;
  class_name : string;
  capacity : number;
  class_status : Status;
  description : option string;
  classGroupId : string;
  campusId : string;
  buildingId : option string;
  roomId : option string;
  teachers : list TeacherClass
}.

Record TeacherProfile := mkTeacherProfile {
  tp_id : string;
  tp_userId : string
}.

Record StudentProfile := mkStudentProfile {
  sp_id : string;
  sp_classId : option string;
  sp_createdAt : Date
}.

Record Attendance := mkAttendance {
  att_studentId : string;
  att_date : Date;
  att_status : string
}.

Record ActivitySubmission := mkSubmission {
  obtainedMarks : option float;
  totalMarks : option float
}.

Record Subject := mkSubject {
  subject_name : string
}.

Record ClassActivity := mkActivity {
  act_classId : string;
  act_createdAt : Date;
  act_subject : Subject;
  submissions : list ActivitySubmission
}.

Record AssessmentPeriod := mkAssessmentPeriod { period_name : string }.

Record AcademicTerm := mkAcademicTerm {
  term_name : string;
  assessmentPeriods : list AssessmentPeriod
}.

Record TermStructure := mkTermStructure {
  academicTerms : list AcademicTerm
}.

Record AssessmentSystem := mkAssessmentSystem { system_name : string }.

Record SubjectRecord := mkSubjectRecord { record_subject : Subject }.

(** A gradebook row together with the relations the handler includes. *)
Record GradeBook := mkGradeBook {
  gb_classId : string;
  assessmentSystem : AssessmentSystem;
  termStructure : TermStructure;
  subjectRecords : list SubjectRecord
}.

(** The store. [db_class] is keyed by the class id, [db_gradeBook] by the
    class id a gradebook belongs to (the unique key [findUnique] uses); the
    tables that are only scanned are lists in the store's own row order.
    [db_nextId] is the identifier the store gives the next created class. *)
Record Db := mkDb {
  db_class : gmap string Class;
  db_classGroup : gset string;
  db_campus : gset string;
  db_building : gset string;
  db_room : gset string;
  db_teacherProfile : list TeacherProfile;
  db_studentProfile : list StudentProfile;
  db_attendance : list Attendance;
  db_classActivity : list ClassActivity;
  db_gradeBook : gmap string GradeBook;
  db_nextId : string
}.

(** Calls recorded for the properties that count them. *)
Inductive Event :=
| GradeBookFindUnique (classId : string)
| InitializeGradeBook (classId : string).

#[export] Instance Event_eq_dec : EqDecision Event.
Proof. solve_decision. Defined.

Record World := mkWorld {
  prisma : Db;
  journal : list Event
}.

(** ** Asynchronous computations over the store *)

Definition Async (A : Type) : Type := World → Result A * World.

Definition resolve {A} (a : A) : Async A := λ w, (inr a, w).

Definition throw {A} (e : Exn) : Async A := λ w, (inl e, w).

Definition await {A B} (m : Async A) (k : A → Async B) : Async B :=
  λ w, match m w with
       | (inr a, w') => k a w'
       | (inl e, w') => (inl e, w')
       end.

Definition try_catch {A} (m : Async A) (handler : Exn → Async A) : Async A :=
  λ w, match m w with
       | (inr a, w') => (inr a, w')
       | (inl e, w') => handler e w'
       end.

Definition record_event (ev : Event) : Async unit :=
  λ w, (inr tt, mkWorld (prisma w) (journal w ++ [ev])).

Definition query {A} (f : Db → A) : Async A := λ w, (inr (f (prisma w)), w).

Notation "'let*' x ':=' m 'in' k" := (await m (λ x, k))
  (at level 10, x name, m at level 100, k at level 200).

(** ** The request context *)

Record User := mkUser { user_id : option string }.

Record Session := mkSession { user : option User }.

(** [ctx.session?.user?.id] *)
Definition session_user_id (session : option Session) : option string :=
  match session with
  | Some s => match user s with
              | Some u => user_id u
              | None => None
              end
  | None => None
  end.

(** ** Store calls (the ORM's documented behaviour) *)

(** A [where] clause over classes, with the conjuncts the router builds. *)
Record ClassWhere := mkClassWhere {
  where_status : option Status;
  where_name_contains_insensitive : option string;
  where_classGroupId : option string;
  where_teachers_some_teacherId : option string;
  where_campus_id : option string
}.

Definition lower_ascii (c : ascii) : ascii :=
  let n := nat_of_ascii c in
  if (65 <=? n)%nat && (n <=? 90)%nat then ascii_of_nat (n + 32) else c.

Fixpoint lower (s : string) : string :=
  match s with
  | EmptyString => EmptyString
  | String c s' => String (lower_ascii c) (lower s')
  end.

(** [needle] occurs in [hay]. *)
Fixpoint contains (needle hay : string) : bool :=
  String.prefix needle hay ||
  match hay with
  | EmptyString => false
  | String _ hay' => contains needle hay'
  end.

(** [{ contains: needle, mode: 'insensitive' }] *)
Definition contains_insensitive (needle hay : string) : bool :=
  contains (lower needle) (lower hay).

Definition opt_holds {A} (o : option A) (p : A → bool) : bool :=
  match o with
  | Some a => p a
  | None => true
  end.

Definition matches (w : ClassWhere) (c : Class) : bool :=
  opt_holds (where_status w) (λ s, bool_decide (class_status c = s))
  && opt_holds (where_name_contains_insensitive w)
       (λ s, contains_insensitive s (class_name c))
  && opt_holds (where_classGroupId w) (λ g, bool_decide (classGroupId c = g))
  && opt_holds (where_teachers_some_teacherId w)
       (λ t, existsb (λ tc, bool_decide (teacherId tc = t)) (teachers c))
  && opt_holds (where_campus_id w) (λ i, bool_decide (campusId c = i)).

Definition rows (db : Db) : list Class := (map_to_list (db_class db)).*2.

Section Collation.

(** The order the store sorts names by ([orderBy: { name: 'asc' }]); which
    one it is depends on the database's collation. *)
Variable name_le : string → string → bool.

Fixpoint insert_by_name (c : Class) (l : list Class) : list Class :=
  match l with
  | [] => [c]
  | c' :: l' =>
      if name_le (class_name c) (class_name c') then c :: l
      else c' :: insert_by_name c l'
  end.

Definition order_by_name (l : list Class) : list Class :=
  foldr insert_by_name [] l.

(** [prisma.class.findMany({ where, orderBy: { name: 'asc' } })] *)
Definition class_findMany_ordered (w : ClassWhere) : Async (list Class) :=
  query (λ db, order_by_name (filter (λ c, matches w c = true) (rows db))).

End Collation.

(** [prisma.class.findMany({ where })], rows in the store's order. *)
Definition class_findMany (p : Db → Class → bool) : Async (list Class) :=
  query (λ db, filter (λ c, p db c = true) (rows db)).

Definition with_class (db : Db) (m : gmap string Class) (next : string) : Db :=
  mkDb m (db_classGroup db) (db_campus db) (db_building db) (db_room db)
       (db_teacherProfile db) (db_studentProfile db) (db_attendance db)
       (db_classActivity db) (db_gradeBook db) next.

Definition P2025 : Exn :=
  PrismaKnownError "P2025"
    "An operation failed because it depends on one or more records that were required but not found.".

Definition P2002 : Exn :=
  PrismaKnownError "P2002" "Unique constraint failed on the fields: (`id`)".

Definition P2003 : Exn :=
  PrismaKnownError "P2003" "Foreign key constraint failed on the field: `classId`".

(** A row as a call without [include] returns it: the relation [teachers] is
    not loaded. *)
Definition without_relations (c : Class) : Class :=
  mkClass (class_id c) (class_name c) (capacity c) (class_status c) (description c)
          (classGroupId c) (campusId c) (buildingId c) (roomId c) [].

Section Deletion.

(** What the database does when a row that exists is deleted: it refuses
    with an error, or gives the store without the row and with the rows that
    refer to it treated as the schema says (cascade, set null, restrict).
    The schema is not among the sources, so this is left open. *)
Variable onDelete : Class → Db → Exn + Db.

(** [prisma.class.delete({ where: { id } })]: the record-not-found error
    [P2025] when no row has that id; else what the database makes of the
    deletion, resolving to the deleted row without its relations. *)
Definition class_delete (id : string) : Async Class :=
  λ w, match db_class (prisma w) !! id with
       | Some c =>
           match onDelete c (prisma w) with
           | inr db' => (inr (without_relations c), mkWorld db' (journal w))
           | inl error => (inl error, w)
           end
       | None => (inl P2025, w)
       end.

End Deletion.

(** Two databases: one removes the row and leaves the other tables alone,
    one refuses to delete a class that has teacher rows. *)
Definition cascade (c : Class) (db : Db) : Exn + Db :=
  inr (with_class db (delete (class_id c) (db_class db)) (db_nextId db)).

Definition restrict (c : Class) (db : Db) : Exn + Db :=
  match teachers c with
  | [] => cascade c db
  | _ :: _ => inl P2003
  end.

(** The [data] argument of [prisma.class.create]. *)
Record ClassCreateInput := mkClassCreateInput {
  data_name : string;
  data_classGroup_connect : string;
  data_campus_connect : string;
  data_building_connect : option string;
  data_room_connect : option string;
  data_capacity : number;
  data_status : Status;
  data_description : option string;
  data_teachers_createMany : list TeacherClass
}.

Definition connectable (ids : gset string) (o : option string) : bool :=
  opt_holds o (λ i, bool_decide (i ∈ ids)).

(** Successor of a store identifier. *)
Definition next_id (id : string) : string := id +:+ "'".

(** [prisma.class.create({ data })]: every [connect] must name an existing
    record ([P2025] otherwise) and the new id must be free ([P2002]
    otherwise); the created row carries the connected ids. *)
Definition class_create (data : ClassCreateInput) : Async Class :=
  λ w,
    let db := prisma w in
    if negb (bool_decide (data_classGroup_connect data ∈ db_classGroup db)
             && bool_decide (data_campus_connect data ∈ db_campus db)
             && connectable (db_building db) (data_building_connect data)
             && connectable (db_room db) (data_room_connect data))
    then (inl P2025, w)
    else match db_class db !! db_nextId db with
         | Some _ => (inl P2002, w)
         | None =>
             let c := mkClass (db_nextId db) (data_name data) (data_capacity data)
                        (data_status data) (data_description data)
                        (data_classGroup_connect data) (data_campus_connect data)
                        (data_building_connect data) (data_room_connect data)
                        (data_teachers_createMany data) in
             (inr c, mkWorld (with_class db (<[db_nextId db := c]> (db_class db))
                                         (next_id (db_nextId db)))
                             (journal w))
         end.

(** [prisma.gradeBook.findUnique({ where: { classId }, include })] *)
Definition gradeBook_findUnique (classId : string) : Async (option GradeBook) :=
  let* _ := record_event (GradeBookFindUnique classId) in
  query (λ db, db_gradeBook db !! classId).

(** The gradebook service the router builds with [createServices]; only its
    [initializeGradeBook] is called. It works on the store and may throw. *)
Record GradeBookService := mkGradeBookService {
  initializeGradeBook : string → Db → option Exn * Db
}.

Definition call_initializeGradeBook (service : GradeBookService) (classId : string)
  : Async unit :=
  let* _ := record_event (InitializeGradeBook classId) in
  λ w, match initializeGradeBook service classId (prisma w) with
       | (None, db') => (inr tt, mkWorld db' (journal w))
       | (Some e, db') => (inl e, mkWorld db' (journal w))
       end.

(** ** The class router *)

(** *** searchClasses *)

Record SearchClassesInput := mkSearchClassesInput {
  sc_classGroupId : option string;
  sc_search : option string;
  sc_teacherId : option string;
  sc_status : option Status;
  sc_campusId : option string
}.

(** [...(x && { field: x })]: the conjunct is there for a non-empty [x]. *)
Definition spread_if (o : option string) : option string :=
  match o with
  | Some s => if truthy s then Some s else None
  | None => None
  end.

Definition searchClasses_where (input : SearchClassesInput) : ClassWhere :=
  {| where_status := Some (default ACTIVE (sc_status input));
     where_name_contains_insensitive := spread_if (sc_search input);
     where_classGroupId := spread_if (sc_classGroupId input);
     where_teachers_some_teacherId := spread_if (sc_teacherId input);
     where_campus_id := spread_if (sc_campusId input) |}.

Definition searchClasses (name_le : string → string → bool)
    (input : SearchClassesInput) : Async (list Class) :=
  try_catch
    (let* classes := class_findMany_ordered name_le (searchClasses_where input) in
     resolve classes)
    (λ error,
       throw (TRPCError INTERNAL_SERVER_ERROR "Failed to fetch classes" (Some error))).

(** *** createClass *)

Record ClassCreate := mkClassCreate {
  cc_name : string;
  cc_classGroupId : string;
  cc_campusId : string;
  cc_buildingId : option string;
  cc_roomId : option string;
  cc_capacity : number;
  cc_status : Status;
  cc_classTutorId : option string;
  cc_teacherIds : option (list string);
  cc_description : option string
}.

(** [classCreateSchema]: the inputs the procedure accepts. *)
Definition classCreateSchema (input : ClassCreate) : bool :=
  bool_decide (1 ≤ String.length (cc_name input))%nat
  && bool_decide (1 ≤ String.length (cc_classGroupId input))%nat
  && bool_decide (1 ≤ String.length (cc_campusId input))%nat
  && bool_decide (1 ≤ cc_capacity input)%Qc.

(** [[...(input.teacherIds || []), input.classTutorId].filter(Boolean)] *)
Definition createClass_userIds (input : ClassCreate) : list string :=
  omap spread_if (map Some (default [] (cc_teacherIds input)) ++ [cc_classTutorId input]).

Definition teacherProfile_findMany_in (userIds : list string)
  : Async (list TeacherProfile) :=
  query (λ db, filter (λ p, tp_userId p ∈ userIds) (db_teacherProfile db)).

Definition createClass_data (input : ClassCreate) (teacherProfiles : list TeacherProfile)
  : ClassCreateInput :=
  {| data_name := cc_name input;
     data_classGroup_connect := cc_classGroupId input;
     data_campus_connect := cc_campusId input;
     data_building_connect := spread_if (cc_buildingId input);
     data_room_connect := spread_if (cc_roomId input);
     data_capacity := cc_capacity input;
     data_status := cc_status input;
     data_description := cc_description input;
     data_teachers_createMany :=
       map (λ profile,
              {| teacherId := tp_id profile;
                 isClassTeacher :=
                   bool_decide (Some (tp_userId profile) = cc_classTutorId input);
                 tc_status := ACTIVE |})
           teacherProfiles |}.

(** The [try] block ends in [return ctx.prisma.class.create(...)] without an
    [await]: the block yields the pending call, and a failure of that call is
    not seen by the [catch]. *)
Definition createClass (input : ClassCreate) : Async Class :=
  let* pending :=
    try_catch
      (let* teacherProfiles := teacherProfile_findMany_in (createClass_userIds input) in
       resolve (class_create (createClass_data input teacherProfiles)))
      (λ error,
         throw (TRPCError INTERNAL_SERVER_ERROR "Failed to create class" (Some error))) in
  pending.

(** *** deleteClass *)

Definition deleteClass (onDelete : Class → Db → Exn + Db) (input : string)
  : Async Class :=
  class_delete onDelete input.

(** *** list *)

Definition list_classes (session : option Session) : Async (list Class) :=
  match session with
  | None =>
      throw (TRPCError UNAUTHORIZED "You must be logged in to access this resource" None)
  | Some _ =>
      let* pending :=
        try_catch
          (resolve (class_findMany (λ _ _, true)))
          (λ error,
             throw (TRPCError INTERNAL_SERVER_ERROR "Failed to list classes" (Some error))) in
      pending
  end.

(** *** getTeacherClasses *)

(** [teachers: { some: { teacher: { userId } } }] *)
Definition taught_by (userId : string) (db : Db) (c : Class) : bool :=
  existsb (λ tc,
             existsb (λ p, bool_decide (tp_id p = teacherId tc)
                           && bool_decide (tp_userId p = userId))
                     (db_teacherProfile db))
          (teachers c).

Definition getTeacherClasses (session : option Session) : Async (list Class) :=
  match session_user_id session with
  | Some userId =>
      if negb (truthy userId) then resolve []
      else class_findMany (taught_by userId)
  | None => resolve []
  end.

(** *** getHistoricalAnalytics *)

Record RangeInput := mkRangeInput {
  range_id : string;
  startDate : Date;
  endDate : Date
}.

(** [where: { classId: id, createdAt: { gte, lte } }] *)
Definition historicalStudents_of (input : RangeInput) (db : Db) : list StudentProfile :=
  filter (λ s, sp_classId s = Some (range_id input)
               ∧ within (startDate input) (endDate input) (sp_createdAt s) = true)
         (db_studentProfile db).

Definition studentProfile_findMany_created (input : RangeInput)
  : Async (list StudentProfile) :=
  query (historicalStudents_of input).

(** [id ? 1 : 0] *)
Definition presence (id : string) : number := if truthy id then 1 else 0.

Definition studentGrowth (historicalStudents : list StudentProfile) : number :=
  if bool_decide (1 < length historicalStudents)%nat then
    match last historicalStudents, head historicalStudents with
    | Some final, Some first =>
        (presence (sp_id final) - presence (sp_id first))
        / (if truthy (sp_id first) then 1 else 1) * hundred
    | _, _ => 0
    end
  else 0.

Record HistoricalAnalytics := mkHistoricalAnalytics {
  ha_studentGrowth : number;
  historicalData : list StudentProfile
}.

Definition getHistoricalAnalytics (input : RangeInput) : Async HistoricalAnalytics :=
  let* historicalStudents := studentProfile_findMany_created input in
  resolve {| ha_studentGrowth := studentGrowth historicalStudents;
             historicalData := historicalStudents |}.

(** *** getPerformanceTrends *)

(** [where: { classId: id, createdAt: { gte, lte } }] *)
Definition activities_of (input : RangeInput) (db : Db) : list ClassActivity :=
  filter (λ a, act_classId a = range_id input
               ∧ within (startDate input) (endDate input) (act_createdAt a) = true)
         (db_classActivity db).

Definition classActivity_findMany_created (input : RangeInput)
  : Async (list ClassActivity) :=
  query (activities_of input).

(** [(sub.obtainedMarks || 0) / (sub.totalMarks || 1) * 100] *)
Definition percentage (sub : ActivitySubmission) : float :=
  (number_or (obtainedMarks sub) 0 / number_or (totalMarks sub) 1 * 100)%float.

(** [submissions.length || 1] *)
Definition length_or_1 {A} (l : list A) : float :=
  if bool_decide (length l = 0%nat) then 1%float else integer (length l).

Definition activityAverage (activity : ClassActivity) : float :=
  (fold_left (λ acc sub, acc + percentage sub) (submissions activity) 0
   / length_or_1 (submissions activity))%float.

Record PerformancePoint := mkPerformancePoint {
  pp_date : string;
  pp_averageScore : float
}.

Definition performanceData (activities : list ClassActivity) : list PerformancePoint :=
  map (λ activity, {| pp_date := dateKey (act_createdAt activity);
                      pp_averageScore := activityAverage activity |})
      activities.

Record SubjectTotals := mkSubjectTotals {
  st_subject : string;
  totalScore : float;
  count : float
}.

Definition subjectWise_step (acc : JsObject.t SubjectTotals) (activity : ClassActivity)
  : JsObject.t SubjectTotals :=
  let subjectName := subject_name (act_subject activity) in
  let acc :=
    if negb (JsObject.has acc subjectName)
    then JsObject.assign acc subjectName
           {| st_subject := subjectName; totalScore := 0%float; count := 0%float |}
    else acc in
  let avgScore := activityAverage activity in
  let acc :=
    JsObject.modify acc subjectName
      (λ d, {| st_subject := st_subject d;
               totalScore := (totalScore d + avgScore)%float;
               count := count d |}) in
  JsObject.modify acc subjectName
    (λ d, {| st_subject := st_subject d;
             totalScore := totalScore d;
             count := (count d + 1)%float |}).

Definition subjectWise (activities : list ClassActivity) : JsObject.t SubjectTotals :=
  fold_left subjectWise_step activities [].

Record SubjectPerformance := mkSubjectPerformance {
  perf_subject : string;
  perf_averageScore : float
}.

Definition subjectPerformance (activities : list ClassActivity)
  : list SubjectPerformance :=
  map (λ data, {| perf_subject := st_subject data;
                  perf_averageScore := (totalScore data / count data)%float |})
      (JsObject.values (subjectWise activities)).

Record PerformanceTrends := mkPerformanceTrends {
  pt_data : list PerformancePoint;
  pt_subjectWise : list SubjectPerformance
}.

Definition getPerformanceTrends (input : RangeInput) : Async PerformanceTrends :=
  let* activities := classActivity_findMany_created input in
  resolve {| pt_data := performanceData activities;
             pt_subjectWise := subjectPerformance activities |}.

(** *** getAttendanceStats *)

(** [where: { student: { classId: id }, date: { gte, lte } }] *)
Definition attendance_of (input : RangeInput) (db : Db) : list Attendance :=
  filter (λ r, existsb (λ s, bool_decide (sp_id s = att_studentId r)
                             && bool_decide (sp_classId s = Some (range_id input)))
                       (db_studentProfile db) = true
               ∧ within (startDate input) (endDate input) (att_date r) = true)
         (db_attendance db).

Definition attendance_findMany (input : RangeInput) : Async (list Attendance) :=
  query (attendance_of input).

Record DayStats := mkDayStats {
  present : float;
  total : float
}.

Definition attendanceByDate_step (acc : JsObject.t DayStats) (record : Attendance)
  : JsObject.t DayStats :=
  let date := dateKey (att_date record) in
  let acc :=
    if negb (JsObject.has acc date)
    then JsObject.assign acc date {| present := 0%float; total := 0%float |}
    else acc in
  let acc :=
    JsObject.modify acc date
      (λ s, {| present := present s; total := (total s + 1)%float |}) in
  if bool_decide (att_status record = "PRESENT")
  then JsObject.modify acc date
         (λ s, {| present := (present s + 1)%float; total := total s |})
  else acc.

Definition attendanceByDate (attendance : list Attendance) : JsObject.t DayStats :=
  fold_left attendanceByDate_step attendance [].

Record Trend := mkTrend {
  trend_date : string;
  attendanceRate : float
}.

Definition trends_of (attendance : list Attendance) : list Trend :=
  map (λ '(date, stats),
         {| trend_date := date;
            attendanceRate := (present stats / total stats * 100)%float |})
      (JsObject.entries (attendanceByDate attendance)).

Definition averageAttendance_of (trends : list Trend) : float :=
  if bool_decide (0 < length trends)%nat
  then (fold_left (λ acc day, acc + attendanceRate day) trends 0
        / integer (length trends))%float
  else 0%float.

Record AttendanceStats := mkAttendanceStats {
  trends : list Trend;
  averageAttendance : float
}.

Definition attendanceStats (attendance : list Attendance) : AttendanceStats :=
  let trends := trends_of attendance in
  {| trends := trends; averageAttendance := averageAttendance_of trends |}.

Definition getAttendanceStats (input : RangeInput) : Async AttendanceStats :=
  let* attendance := attendance_findMany input in
  resolve (attendanceStats attendance).

(** *** getGradebook *)

Definition getGradebook (service : GradeBookService) (classId : string)
  : Async GradeBook :=
  try_catch
    (let* gradeBook := gradeBook_findUnique classId in
     match gradeBook with
     | None =>
         let* _ := call_initializeGradeBook service classId in
         let* newGradeBook := gradeBook_findUnique classId in
         match newGradeBook with
         | None =>
             throw (TRPCError NOT_FOUND "Failed to initialize gradebook" None)
         | Some newGradeBook => resolve newGradeBook
         end
     | Some gradeBook => resolve gradeBook
     end)
    (λ error,
       if isTRPCError error then throw error
       else throw (TRPCError INTERNAL_SERVER_ERROR "Failed to fetch gradebook"
                             (Some error))).

(** ** The teacher edit page

    The source holds two variants of [EditTeacherPage]: the first hands the
    form the fetched teacher with [null] turned into [undefined], the second
    builds the form's initial values with defaults. The three queries are
    awaited jointly; the page sees their joint outcome. *)

Module Page.

Record Params := mkParams {
  id : string;
  role : string
}.

Record TeacherProfile := mkTeacherProfile {
  profile_id : string;
  profile_teacherType : string;
  profile_specialization : option string;
  profile_subjectIds : list string;
  profile_classIds : list string;
  profile_campusIds : list string
}.

Record Teacher := mkTeacher {
  teacher_id : string;
  teacher_name : option string;
  teacher_email : option string;
  teacher_phoneNumber : option string;
  teacher_status : Status;
  teacherProfile : option TeacherProfile
}.

(** What the page returns: one of its four renderings. *)
Inductive View (D S C : Type) :=
| InvalidTeacherId
| TeacherNotFound
| TeacherForm (teacherId : string) (initialData : D) (subjects : list S) (classes : list C)
| ErrorLoading (text : string).

Arguments InvalidTeacherId {D S C}.
Arguments TeacherNotFound {D S C}.
Arguments TeacherForm {D S C}.
Arguments ErrorLoading {D S C}.

Definition error_view {D S C} (error : Exn) : View D S C :=
  ErrorLoading ("Error loading teacher data: " +:+ message_or "Unknown error" error).

(** *** Second variant (initial values with defaults) *)

Record FormValues := mkFormValues {
  name : string;
  email : string;
  phoneNumber : string;
  teacherType : string;
  specialization : string;
  campusIds : list string;
  subjectIds : list string;
  classIds : list string
}.

Definition TeacherType_CLASS : string := "CLASS".

(** [teacher.teacherProfile?.ids || []]: an array is truthy, also when empty. *)
Definition ids_or_empty (profile : option TeacherProfile)
    (field : TeacherProfile → list string) : list string :=
  match profile with
  | Some p => field p
  | None => []
  end.

Definition sanitizedTeacher (teacher : Teacher) : FormValues :=
  {| name := or_default (teacher_name teacher) "";
     email := or_default (teacher_email teacher) "";
     phoneNumber := or_default (teacher_phoneNumber teacher) "";
     teacherType :=
       or_default (profile_teacherType <$> teacherProfile teacher) TeacherType_CLASS;
     specialization :=
       or_default (teacherProfile teacher ≫= profile_specialization) "";
     campusIds := ids_or_empty (teacherProfile teacher) profile_campusIds;
     subjectIds := ids_or_empty (teacherProfile teacher) profile_subjectIds;
     classIds := ids_or_empty (teacherProfile teacher) profile_classIds |}.

Definition EditTeacherPage {S C} (params : Params)
    (fetched : Result (option Teacher * list S * list C)) : View FormValues S C :=
  let teacherId := id params in
  if negb (truthy teacherId) then InvalidTeacherId
  else
    match fetched with
    | inr (teacher, subjects, classes) =>
        match teacher with
        | None => TeacherNotFound
        | Some teacher =>
            TeacherForm (id params) (sanitizedTeacher teacher) subjects classes
        end
    | inl error => error_view error
    end.

(** *** First variant (the teacher with [null] fields made [undefined]) *)

(** [x ?? undefined] *)
Definition nullish_undefined {A} (x : option A) : option A :=
  match x with
  | Some a => Some a
  | None => None
  end.

Definition sanitizedTeacher_1 (teacher : Teacher) : Teacher :=
  {| teacher_id := teacher_id teacher;
     teacher_name := nullish_undefined (teacher_name teacher);
     teacher_email := nullish_undefined (teacher_email teacher);
     teacher_phoneNumber := nullish_undefined (teacher_phoneNumber teacher);
     teacher_status := teacher_status teacher;
     teacherProfile :=
       match teacherProfile teacher with
       | Some p =>
           Some {| profile_id := profile_id p;
                   profile_teacherType := profile_teacherType p;
                   profile_specialization :=
                     nullish_undefined (profile_specialization p);
                   profile_subjectIds := profile_subjectIds p;
                   profile_classIds := profile_classIds p;
                   profile_campusIds := profile_campusIds p |}
       | None => None
       end |}.

Definition EditTeacherPage_1 {S C} (params : Params)
    (fetched : Result (option Teacher * list S * list C)) : View Teacher S C :=
  if negb (truthy (id params)) then InvalidTeacherId
  else
    match fetched with
    | inr (teacher, subjects, classes) =>
        match teacher with
        | None => TeacherNotFound
        | Some teacher =>
            TeacherForm (id params) (sanitizedTeacher_1 teacher) subjects classes
        end
    | inl error => error_view error
    end.

End Page.

(** ** Reference definitions the properties are stated against *)

(** The values of a list in order of first occurrence. *)
Fixpoint distinct (l : list string) : list string :=
  match l with
  | [] => []
  | x :: l' => x :: filter (λ y, y ≠ x) (distinct l')
  end.

(** Grouping by a key, as the reducers do it on a plain object: the entry of
    a key is created on its first record and updated by every record of that
    key. [group_step] is one round of such a reducer, [grouped] its result in
    closed form: records whose key is a member of [Object.prototype] never get
    an entry of their own. *)
Definition group_step {R V} (key : R → string) (init : string → V)
    (upd : R → V → V) (acc : JsObject.t V) (r : R) : JsObject.t V :=
  let acc := if negb (JsObject.has acc (key r))
             then JsObject.assign acc (key r) (init (key r))
             else acc in
  JsObject.modify acc (key r) (upd r).

Definition group_value {R V} (key : R → string) (init : string → V)
    (upd : R → V → V) (rs : list R) (k : string) : V :=
  fold_left (λ v r, upd r v) (filter (λ r, key r = k) rs) (init k).

Definition group_keys {R} (key : R → string) (rs : list R) : list string :=
  distinct (map key (filter (λ r, JsObject.inherited (key r) = false) rs)).

Definition grouped {R V} (key : R → string) (init : string → V)
    (upd : R → V → V) (rs : list R) : JsObject.t V :=
  map (λ k, (k, group_value key init upd rs k)) (group_keys key rs).

(** *** Attendance *)

(** What one record adds to the counters of its day. *)
Definition tally (record : Attendance) (s : DayStats) : DayStats :=
  {| present := if bool_decide (att_status record = "PRESENT")
                then (present s + 1)%float else present s;
     total := (total s + 1)%float |}.

Definition on_day (day : string) (attendance : list Attendance) : list Attendance :=
  filter (λ r, dateKey (att_date r) = day) attendance.

Definition present_records (attendance : list Attendance) : list Attendance :=
  filter (λ r, att_status r = "PRESENT") attendance.

(** A number of records as the handlers count it: from 0, by adding 1 for
    each record. It is the number itself up to 2^53. *)
Definition counted (n : nat) : float := count_from 0 n.

(** The ratio of two counts as a percentage: the quotient is rounded, then
    its product with 100. *)
Definition ratio_percent (part whole : nat) : float :=
  (counted part / counted whole * 100)%float.

(** A day's present/total ratio as a percentage. *)
Definition day_rate (day : string) (attendance : list Attendance) : float :=
  ratio_percent (length (present_records (on_day day attendance)))
                (length (on_day day attendance)).

(** The days that have at least one record. *)
Definition days (attendance : list Attendance) : list string :=
  distinct (map (λ r, dateKey (att_date r)) attendance).

Definition mean_daily_rate (attendance : list Attendance) : float :=
  mean (map (λ day, day_rate day attendance) (days attendance)).

(** The present/total ratio over all records at once. *)
Definition global_rate (attendance : list Attendance) : float :=
  ratio_percent (length (present_records attendance)) (length attendance).

(** *** Performance *)

(** What one activity adds to the totals of its subject. *)
Definition add_score (activity : ClassActivity) (d : SubjectTotals) : SubjectTotals :=
  {| st_subject := st_subject d;
     totalScore := (totalScore d + activityAverage activity)%float;
     count := (count d + 1)%float |}.

Definition of_subject (subject : string) (activities : list ClassActivity)
  : list ClassActivity :=
  filter (λ a, subject_name (act_subject a) = subject) activities.

(** The percentage score of a submission: the obtained marks, 0 when they
    are missing, over the total marks, 1 when they are missing or zero, times
    100. ([NaN] marks count as missing.) *)
Definition marks_percent (sub : ActivitySubmission) : float :=
  let obtained :=
    match obtainedMarks sub with
    | Some o => if PrimFloat.is_nan o then 0%float
                else if (o =? 0)%float then 0%float else o
    | None => 0%float
    end in
  let possible :=
    match totalMarks sub with
    | Some t => if PrimFloat.is_nan t then 1%float
                else if (t =? 0)%float then 1%float else t
    | None => 1%float
    end in
  (obtained / possible * 100)%float.

(** The mean percentage of an activity's submissions, 0 without any. *)
Definition activity_mean (activity : ClassActivity) : float :=
  match submissions activity with
  | [] => 0%float
  | _ => mean (map marks_percent (submissions activity))
  end.

(** The mean, over a subject's activities, of each activity's mean: their
    sum over their number as the handler counts it. *)
Definition mean_of_activity_means (subject : string) (activities : list ClassActivity)
  : float :=
  (sum (map activity_mean (of_subject subject activities))
   / counted (length (of_subject subject activities)))%float.

(** The mean over all the submissions of a subject's activities. *)
Definition mean_over_submissions (subject : string) (activities : list ClassActivity)
  : float :=
  mean (map marks_percent (flat_map submissions (of_subject subject activities))).

(** *** Gradebook *)

(** Modelled from the spec: [GradeBookService.initializeGradeBook], whose
    source (services/GradeBookService) is not among the sources. "Invoke an
    initialization routine (create gradebook + term structure +
    assessment-period records)": the routine stores a gradebook for the class,
    with its assessment system, a term structure with a term and its
    assessment periods, and the subject records, and returns without
    throwing. What the records hold beyond that is not specified; the
    contents here are placeholders. *)
Definition initialized_gradeBook (classId : string) : GradeBook :=
  mkGradeBook classId (mkAssessmentSystem "assessment system")
    (mkTermStructure
       [mkAcademicTerm "term" [mkAssessmentPeriod "assessment period"]])
    [].

(** Modelled from the spec: the service whose initialization stores
    [initialized_gradeBook] under the class id and returns. *)
Definition spec_service : GradeBookService :=
  {| initializeGradeBook := λ classId db,
       (None,
        mkDb (db_class db) (db_classGroup db) (db_campus db) (db_building db)
             (db_room db) (db_teacherProfile db) (db_studentProfile db)
             (db_attendance db) (db_classActivity db)
             (<[classId := initialized_gradeBook classId]> (db_gradeBook db))
             (db_nextId db)) |}.

(** The class ids [initializeGradeBook] was called with, oldest first. *)
Definition initialize_calls (calls : list Event) : list string :=
  omap (λ ev, match ev with
              | InitializeGradeBook classId => Some classId
              | GradeBookFindUnique _ => None
              end) calls.

(** *** Class creation *)

(** The records a request asks to connect exist in the store. *)
Definition connect_targets_exist (input : ClassCreate) (db : Db) : Prop :=
  cc_classGroupId input ∈ db_classGroup db
  ∧ cc_campusId input ∈ db_campus db
  ∧ (∀ b, spread_if (cc_buildingId input) = Some b → b ∈ db_building db)
  ∧ (∀ r, spread_if (cc_roomId input) = Some r → r ∈ db_room db).

(** *** Search *)

(** Two characters that are equal or the two cases of one letter [A]..[Z]. *)
Definition same_letter (c d : ascii) : Prop :=
  c = d
  ∨ ∃ upper, (65 ≤ upper ≤ 90)%nat
             ∧ ((nat_of_ascii c = upper ∧ nat_of_ascii d = (upper + 32)%nat)
                ∨ (nat_of_ascii c = (upper + 32)%nat ∧ nat_of_ascii d = upper)).

(** Two strings that are equal up to the case of their letters. *)
Fixpoint equal_ignoring_case (s t : string) : Prop :=
  match s, t with
  | EmptyString, EmptyString => True
  | String c s', String d t' => same_letter c d ∧ equal_ignoring_case s' t'
  | _, _ => False
  end.

(** [needle] occurs in [hay] up to the case of the letters. *)
Definition occurs_ignoring_case (needle hay : string) : Prop :=
  ∃ left middle right,
    hay = left +:+ middle +:+ right ∧ equal_ignoring_case middle needle.

Definition without_search (input : SearchClassesInput) : SearchClassesInput :=
  {| sc_classGroupId := sc_classGroupId input;
     sc_search := None;
     sc_teacherId := sc_teacherId input;
     sc_status := sc_status input;
     sc_campusId := sc_campusId input |}.

(** *** Student growth as the specification words it: the difference of the
    two presence values divided by the first record's presence value. *)
Definition studentGrowth_by_presence (historicalStudents : list StudentProfile)
  : number :=
  if bool_decide (1 < length historicalStudents)%nat then
    match last historicalStudents, head historicalStudents with
    | Some final, Some first =>
        (presence (sp_id final) - presence (sp_id first))
        / presence (sp_id first) * hundred
    | _, _ => 0
    end
  else 0.


(** ** Sample stores and requests *)

Definition empty_db : Db := mkDb ∅ ∅ ∅ ∅ ∅ [] [] [] [] ∅ "class-1".

Definition with_attendance (students : list StudentProfile)
    (attendance : list Attendance) : World :=
  mkWorld (mkDb ∅ ∅ ∅ ∅ ∅ [] students attendance [] ∅ "class-1") [].

(** Midnight UTC of a day of February 2025. *)
Definition february (d : nat) : Date := mkDate 2025 1 d 0 0 0 0.

Definition february_2025 : RangeInput :=
  {| range_id := "c1"; startDate := february 1; endDate := february 28 |}.

Definition four_students : list StudentProfile :=
  [ mkStudentProfile "s1" (Some "c1") (february 3);
    mkStudentProfile "s2" (Some "c1") (february 3);
    mkStudentProfile "s3" (Some "c1") (february 4);
    mkStudentProfile "s4" (Some "c1") (february 5) ].

(** One day with three [PRESENT] records and an [ABSENT] one. *)
Definition three_of_four : World :=
  with_attendance four_students
    [ mkAttendance "s1" (february 24) "PRESENT";
      mkAttendance "s2" (february 24) "PRESENT";
      mkAttendance "s3" (february 24) "ABSENT";
      mkAttendance "s4" (february 24) "PRESENT" ].

(** A day with one record, present, and a day with four, one of them
    present. *)
Definition uneven_days : World :=
  with_attendance four_students
    [ mkAttendance "s1" (february 24) "PRESENT";
      mkAttendance "s1" (february 25) "PRESENT";
      mkAttendance "s2" (february 25) "ABSENT";
      mkAttendance "s3" (february 25) "ABSENT";
      mkAttendance "s4" (february 25) "ABSENT" ].

Definition marks (obtained possible : nat) : ActivitySubmission :=
  mkSubmission (Some (integer obtained)) (Some (integer possible)).

(** Two activities of one subject: one submission at 100 out of 100, and
    three submissions at 0 out of 100. *)
Definition two_activities : World :=
  mkWorld
    (mkDb ∅ ∅ ∅ ∅ ∅ [] [] []
       [ mkActivity "c1" (february 10) (mkSubject "Mathematics") [marks 100 100];
         mkActivity "c1" (february 17) (mkSubject "Mathematics")
           [marks 0 100; marks 0 100; marks 0 100] ]
       ∅ "class-1")
    [].

(** Two student profiles of the class, the first with an empty id. *)
Definition unset_first_id : World :=
  mkWorld
    (mkDb ∅ ∅ ∅ ∅ ∅ []
       [ mkStudentProfile "" (Some "c1") (february 3);
         mkStudentProfile "s2" (Some "c1") (february 4) ]
       [] [] ∅ "class-1")
    [].

Definition with_gradeBook (db : Db) (m : gmap string GradeBook) : Db :=
  mkDb (db_class db) (db_classGroup db) (db_campus db) (db_building db) (db_room db)
       (db_teacherProfile db) (db_studentProfile db) (db_attendance db)
       (db_classActivity db) m (db_nextId db).

Definition sample_gradeBook (classId : string) : GradeBook :=
  mkGradeBook classId (mkAssessmentSystem "Marking scheme")
    (mkTermStructure [mkAcademicTerm "Term 1" [mkAssessmentPeriod "Midterm"]])
    [].

(** An initialization that stores a gradebook for the class. *)
Definition creating_service : GradeBookService :=
  {| initializeGradeBook := λ classId db,
       (None, with_gradeBook db (<[classId := sample_gradeBook classId]> (db_gradeBook db))) |}.


Definition empty_world : World := mkWorld empty_db [].

Definition no_filters : SearchClassesInput :=
  mkSearchClassesInput None None None None None.

Definition class_row (id name : string) (status : Status) : Class :=
  mkClass id name (of_nat 30) status None "g1" "campus1" None None [].

(** A store with an active, an inactive and an archived class. *)
Definition three_classes : World :=
  mkWorld
    (mkDb (<["k1" := class_row "k1" "Grade 7 Blue" ACTIVE]>
           (<["k2" := class_row "k2" "Grade 8 Red" INACTIVE]>
            (<["k3" := class_row "k3" "grade 9 green" ARCHIVED]> ∅)))
          {["g1"]} {["campus1"]} {["b1"]} {["r1"]} [] [] [] [] ∅ "class-1")
    [].

(** A valid request to create a class in a building and a room. *)
Definition housed_class : ClassCreate :=
  {| cc_name := "Grade 7 Blue"; cc_classGroupId := "g1"; cc_campusId := "campus1";
     cc_buildingId := Some "b1"; cc_roomId := Some "r1"; cc_capacity := of_nat 30;
     cc_status := ACTIVE; cc_classTutorId := None; cc_teacherIds := None;
     cc_description := None |}.

(** A valid request whose building and room ids are present but empty. *)
Definition blank_building : ClassCreate :=
  {| cc_name := "Grade 7 Blue"; cc_classGroupId := "g1"; cc_campusId := "campus1";
     cc_buildingId := Some ""; cc_roomId := Some ""; cc_capacity := of_nat 30;
     cc_status := ACTIVE; cc_classTutorId := None; cc_teacherIds := None;
     cc_description := None |}.

Definition anonymous_session : option Session := Some (mkSession None).

(** An existing teacher without name, email, phone number or profile. *)
Definition bare_teacher : Page.Teacher :=
  Page.mkTeacher "t1" None None None ACTIVE None.

Definition edit_t1 : Page.Params := Page.mkParams "t1" "super-admin".

(** ** Proof automation *)

(** Equality of two closed rationals. *)
Ltac qc_eq := apply Qc_is_canon; vm_compute; reflexivity.

(** Two closed rationals differ. *)
Ltac qc_neq :=
  let H := fresh in
  intros H; apply (f_equal this) in H; vm_compute in H; discriminate H.

(** ** The other procedures of the class router *)

(** [prisma.class.findUnique({ where: { id }, include })]: the row, or [null]. *)
Definition class_findUnique (id : string) : Async (option Class) :=
  query (λ db, db_class db !! id).

(** *** getClass *)

Definition getClass (input : string) : Async (option Class) :=
  class_findUnique input.

(** *** getClassDetails *)

Definition getClassDetails (id : string) : Async Class :=
  let* classDetails := class_findUnique id in
  match classDetails with
  | None => throw (TRPCError NOT_FOUND "Class not found" None)
  | Some classDetails => resolve classDetails
  end.

(** *** getById *)

Definition getById (input : string) : Async (option Class) :=
  class_findUnique input.

(** *** search *)

Record SearchInput := mkSearchInput {
  s_search : option string;
  s_status : option Status;
  s_classGroupId : option string;
  s_teachers_some_teacherId : option string
}.

(** [{ ...filters, ...(search && { OR: [...] }) }]: the filters go into the
    [where] clause as they come, an absent one leaving no conjunct. *)
Definition search_where (input : SearchInput) : ClassWhere :=
  {| where_status := s_status input;
     where_name_contains_insensitive := spread_if (s_search input);
     where_classGroupId := s_classGroupId input;
     where_teachers_some_teacherId := s_teachers_some_teacherId input;
     where_campus_id := None |}.

Definition search (input : SearchInput) : Async (list Class) :=
  class_findMany (λ _ c, matches (search_where input) c).

(** *** getStudents *)

Definition getStudents (classId : string) : Async (list StudentProfile) :=
  query (λ db, filter (λ s, sp_classId s = Some classId) (db_studentProfile db)).

(** ** Further reference definitions *)

(** A request with its empty filters left out. *)
Definition without_blanks (input : SearchClassesInput) : SearchClassesInput :=
  {| sc_classGroupId := spread_if (sc_classGroupId input);
     sc_search := spread_if (sc_search input);
     sc_teacherId := spread_if (sc_teacherId input);
     sc_status := sc_status input;
     sc_campusId := spread_if (sc_campusId input) |}.

(** The UTC calendar fields of a date are in the range a [Date] can hold. *)
Definition calendar_fields (d : Date) : Prop :=
  (-271821 ≤ utcFullYear d ≤ 275760)%Z
  ∧ (utcMonth d < 12)%nat
  ∧ (1 ≤ utcDate d ≤ 31)%nat.

Definition same_day (a b : Date) : Prop :=
  utcFullYear a = utcFullYear b ∧ utcMonth a = utcMonth b ∧ utcDate a = utcDate b.

(** A rendering without the form's initial values. *)
Definition outline {D S C} (v : Page.View D S C) : Page.View unit S C :=
  match v with
  | Page.InvalidTeacherId => Page.InvalidTeacherId
  | Page.TeacherNotFound => Page.TeacherNotFound
  | Page.TeacherForm teacherId _ subjects classes =>
      Page.TeacherForm teacherId tt subjects classes
  | Page.ErrorLoading text => Page.ErrorLoading text
  end.

(** ** Further sample stores and requests *)

Definition session_of (userId : string) : option Session :=
  Some (mkSession (Some (mkUser (Some userId)))).

(** The store of [three_classes] with a gradebook for the class [c1]. *)
Definition with_c1_gradeBook : World :=
  mkWorld (with_gradeBook (prisma three_classes)
             (<["c1" := sample_gradeBook "c1"]> ∅))
          [].

(** The store of [three_classes] with a teacher profile for the user [u1]. *)
Definition with_teacher_u1 : World :=
  mkWorld
    (mkDb (db_class (prisma three_classes)) {["g1"]} {["campus1"]} {["b1"]} {["r1"]}
          [mkTeacherProfile "tp1" "u1"] [] [] [] ∅ "class-1")
    [].

(** A valid request to create a class whose tutor is the user [u1]. *)
Definition tutored_class : ClassCreate :=
  {| cc_name := "Grade 7 Blue"; cc_classGroupId := "g1"; cc_campusId := "campus1";
     cc_buildingId := None; cc_roomId := None; cc_capacity := of_nat 30;
     cc_status := ACTIVE; cc_classTutorId := Some "u1"; cc_teacherIds := Some ["u2"; ""];
     cc_description := None |}.

(** One day with a [PRESENT] record out of three. *)
Definition one_of_three : World :=
  with_attendance four_students
    [ mkAttendance "s1" (february 24) "PRESENT";
      mkAttendance "s2" (february 24) "ABSENT";
      mkAttendance "s3" (february 24) "LATE" ].

(** An activity with a submission at 57 out of 100 and one without marks,
    and an activity without submissions. *)
Definition partial_marks : World :=
  mkWorld
    (mkDb ∅ ∅ ∅ ∅ ∅ [] [] []
       [ mkActivity "c1" (february 10) (mkSubject "Science")
           [marks 57 100; mkSubmission None None];
         mkActivity "c1" (february 11) (mkSubject "Art") [] ]
       ∅ "class-1")
    [].

(** The last decimal digit of [t] and the rest, as linear facts. *)
Ltac decimal_step t :=
  pose proof (Nat.div_mod_eq t 10);
  pose proof (Nat.mod_upper_bound t 10 ltac:(lia)).

(** Folds the quotients that an inversion has unfolded. *)
Ltac fold_div :=
  repeat match goal with
         | H : context [(Nat.divmod ?x ?y 0 ?y).1] |- _ =>
             change (Nat.divmod x y 0 y).1 with (x / S y)%nat in H
         end.

(** Two closed doubles differ. *)
Ltac float_neq :=
  let H := fresh in
  intros H;
  match type of H with
  | _ = ?b => apply (f_equal (λ x, PrimFloat.eqb x b)) in H
  end;
  vm_compute in H; discriminate H.
(** * Properties *)

(** ** The embedding on concrete values *)

Example toISOString_sample :
  toISOString (mkDate 2025 1 24 9 30 5 7) = "2025-02-24T09:30:05.007Z".
Proof. reflexivity. Qed.

Example toISOString_expanded_year :
  toISOString (mkDate 12025 0 1 0 0 0 0) = "+012025-01-01T00:00:00.000Z".
Proof. reflexivity. Qed.

Example dateKey_sample : dateKey (mkDate 2025 1 24 9 30 5 7) = "2025-02-24".
Proof. reflexivity. Qed.

Example array_index_samples :
  JsObject.array_index "10" = Some 10%N
  ∧ JsObject.array_index "0" = Some 0%N
  ∧ JsObject.array_index "010" = None
  ∧ JsObject.array_index "4294967295" = None
  ∧ JsObject.array_index "Mathematics" = None.
Proof. repeat split; reflexivity. Qed.

(** Numeric names come first in [Object.entries], whatever the creation
    order. *)
Example entries_order_sample :
  JsObject.entries [("b", 1%nat); ("10", 2%nat); ("a", 3%nat); ("9", 4%nat)]
  = [("9", 4%nat); ("10", 2%nat); ("b", 1%nat); ("a", 3%nat)].
Proof. reflexivity. Qed.

Example contains_insensitive_sample :
  contains_insensitive "GRADE" "My grade 7" = true
  ∧ contains_insensitive "grade 8" "My Grade 7" = false.
Proof. split; reflexivity. Qed.

(** ** Sums and counters *)

Lemma fold_add_map {A} (f : A → float) (l : list A) (a : float) :
  fold_left (λ acc x, (acc + f x)%float) l a = fold_left PrimFloat.add (map f l) a.
Proof. revert a. induction l as [|x l IH]; intros a; cbn; [done|apply IH]. Qed.

Lemma count_from_succ (x : float) (n : nat) :
  count_from (x + 1)%float n = count_from x (S n).
Proof.
  unfold count_from. induction n as [|n IH]; [reflexivity|].
  change (Nat.iter (S n) (λ v, (v + 1)%float) (x + 1)%float)
    with (Nat.iter n (λ v, (v + 1)%float) (x + 1) + 1)%float.
  by rewrite IH.
Qed.

(** Counting and converting agree, and the operations round as doubles do. *)
Example doubles_sample :
  counted 4 = integer 4
  ∧ counted 4 = 4%float
  ∧ (counted 1 / counted 3 * 100)%float = 0x1.0aaaaaaaaaaaap+5%float
  ∧ number_or (Some (-0)%float) 1 = 1%float
  ∧ number_or (Some (0 / 0)%float) 1 = 1%float
  ∧ number_or None 1 = 1%float
  ∧ number_or (Some 2%float) 1 = 2%float.
Proof. repeat split; reflexivity. Qed.

(** ** First occurrences *)

Lemma distinct_elem (l : list string) (x : string) : x ∈ distinct l ↔ x ∈ l.
Proof.
  induction l as [|y l IH]; cbn; [done|].
  rewrite !elem_of_cons, list_elem_of_filter, IH.
  destruct (decide (x = y)); tauto.
Qed.

Lemma distinct_NoDup (l : list string) : NoDup (distinct l).
Proof.
  induction l as [|y l IH]; cbn; [constructor|].
  constructor.
  - rewrite list_elem_of_filter. tauto.
  - by apply NoDup_filter.
Qed.

Lemma distinct_snoc (l : list string) (x : string) :
  distinct (l ++ [x]) = if decide (x ∈ l) then distinct l else distinct l ++ [x].
Proof.
  induction l as [|y l IH]; cbn.
  - rewrite decide_False; [done|]. by intros ?%elem_of_nil.
  - rewrite IH. destruct (decide (x ∈ l)) as [Hin|Hnin].
    + rewrite decide_True; [done|]. by apply list_elem_of_further.
    + rewrite filter_app. destruct (decide (x = y)) as [->|Hne].
      * rewrite decide_True by apply list_elem_of_here.
        rewrite filter_cons_False by tauto. by rewrite filter_nil, app_nil_r.
      * rewrite decide_False by (rewrite elem_of_cons; tauto).
        by rewrite filter_cons_True.
Qed.

(** ** Plain objects *)

Section object_facts.
Context {V : Type}.
Implicit Types (o : JsObject.t V) (k : string) (D : list string).

Lemma own_keyed (h : string → V) D k :
  JsObject.own (map (λ k', (k', h k')) D) k
  = if decide (k ∈ D) then Some (h k) else None.
Proof.
  induction D as [|d D IH]; cbn.
  - rewrite decide_False; [done|]. by intros ?%elem_of_nil.
  - destruct (decide (d = k)) as [->|Hne].
    + rewrite decide_True; [done|]. apply list_elem_of_here.
    + rewrite IH. destruct (decide (k ∈ D)).
      * rewrite decide_True; [done|]. by apply list_elem_of_further.
      * rewrite decide_False; [done|]. rewrite elem_of_cons. intros [?|?]; congruence.
Qed.

Lemma assign_fresh (h : string → V) D k (v : V) :
  k ∉ D →
  JsObject.assign (map (λ k', (k', h k')) D) k v
  = map (λ k', (k', h k')) D ++ [(k, v)].
Proof.
  induction D as [|d D IH]; cbn; [done|].
  rewrite not_elem_of_cons. intros [Hne Hnin].
  rewrite decide_False by done. by rewrite IH.
Qed.

Lemma modify_absent (h : string → V) D k (f : V → V) :
  k ∉ D →
  JsObject.modify (map (λ k', (k', h k')) D) k f = map (λ k', (k', h k')) D.
Proof.
  induction D as [|d D IH]; cbn; [done|].
  rewrite not_elem_of_cons. intros [Hne Hnin].
  rewrite decide_False by done. by rewrite IH.
Qed.

Lemma modify_last (h : string → V) D k (v : V) (f : V → V) :
  k ∉ D →
  JsObject.modify (map (λ k', (k', h k')) D ++ [(k, v)]) k f
  = map (λ k', (k', h k')) D ++ [(k, f v)].
Proof.
  induction D as [|d D IH]; cbn.
  - intros _. by rewrite decide_True.
  - rewrite not_elem_of_cons. intros [Hne Hnin].
    rewrite decide_False by done. by rewrite IH.
Qed.

Lemma modify_keyed (h : string → V) D k (f : V → V) :
  NoDup D →
  JsObject.modify (map (λ k', (k', h k')) D) k f
  = map (λ k', (k', if decide (k' = k) then f (h k') else h k')) D.
Proof.
  induction 1 as [|d D Hd HD IH]; cbn; [done|].
  destruct (decide (d = k)) as [->|Hne].
  - f_equal. apply map_ext_in. intros k' Hk'. apply list_elem_of_In in Hk'.
    rewrite decide_False; [done|]. by intros ->.
  - by rewrite IH.
Qed.

Lemma modify_twice o k (f g : V → V) :
  JsObject.modify (JsObject.modify o k f) k g = JsObject.modify o k (λ v, g (f v)).
Proof.
  induction o as [|[k' v'] o IH]; cbn; [done|].
  destruct (decide (k' = k)) as [->|Hne]; cbn.
  - by rewrite decide_True.
  - rewrite decide_False by done. by rewrite IH.
Qed.

End object_facts.

(** ** Grouping on a plain object *)

Section grouping.
Context {R V : Type} (key : R → string) (init : string → V) (upd : R → V → V).
Implicit Types (rs : list R) (r : R) (k : string).

Lemma group_keys_not_inherited rs k :
  k ∈ group_keys key rs → JsObject.inherited k = false.
Proof.
  unfold group_keys. rewrite distinct_elem, list_elem_of_fmap.
  intros (r & -> & Hr). by apply list_elem_of_filter in Hr as [? _].
Qed.

Lemma group_keys_elem rs k :
  k ∈ group_keys key rs ↔ JsObject.inherited k = false ∧ ∃ r, r ∈ rs ∧ key r = k.
Proof.
  unfold group_keys. rewrite distinct_elem, list_elem_of_fmap. split.
  - intros (r & -> & Hr). apply list_elem_of_filter in Hr as [? ?]. eauto.
  - intros (Hk & r & Hr & <-). exists r. split; [done|].
    by apply list_elem_of_filter.
Qed.

Lemma group_keys_snoc rs r :
  group_keys key (rs ++ [r])
  = if JsObject.inherited (key r) then group_keys key rs
    else if decide (key r ∈ group_keys key rs) then group_keys key rs
         else group_keys key rs ++ [key r].
Proof.
  unfold group_keys. rewrite filter_app.
  destruct (JsObject.inherited (key r)) eqn:Hinh.
  - rewrite filter_cons_False by congruence. by rewrite filter_nil, app_nil_r.
  - rewrite filter_cons_True by done. rewrite filter_nil, map_app. cbn [map].
    rewrite distinct_snoc.
    destruct (decide (key r ∈ map key (filter _ rs))) as [Hin|Hnin].
    + rewrite decide_True; [done|]. by apply distinct_elem.
    + rewrite decide_False; [done|]. by rewrite distinct_elem.
Qed.

Lemma group_value_snoc rs r k :
  group_value key init upd (rs ++ [r]) k
  = if decide (key r = k) then upd r (group_value key init upd rs k)
    else group_value key init upd rs k.
Proof.
  unfold group_value. rewrite filter_app.
  destruct (decide (key r = k)) as [Hk|Hk].
  - rewrite filter_cons_True by done. by rewrite filter_nil, fold_left_app.
  - rewrite filter_cons_False by done. by rewrite filter_nil, app_nil_r.
Qed.

Lemma group_value_fresh rs k :
  JsObject.inherited k = false → k ∉ group_keys key rs →
  group_value key init upd rs k = init k.
Proof.
  intros Hinh Hk. unfold group_value.
  replace (filter (λ r, key r = k) rs) with (@nil R); [done|].
  symmetry. apply elem_of_nil_inv. intros r Hr.
  apply list_elem_of_filter in Hr as [Hkey Hr].
  apply Hk, group_keys_elem. eauto.
Qed.

Lemma group_step_grouped rs r :
  group_step key init upd (grouped key init upd rs) r
  = grouped key init upd (rs ++ [r]).
Proof.
  unfold group_step, grouped, JsObject.has.
  rewrite own_keyed, group_keys_snoc.
  destruct (JsObject.inherited (key r)) eqn:Hinh.
  - rewrite orb_true_r. cbn [negb].
    assert (Hk : key r ∉ group_keys key rs).
    { intros Hin%group_keys_not_inherited. congruence. }
    rewrite modify_absent by done.
    apply map_ext_in. intros k Hin%list_elem_of_In. f_equal.
    rewrite group_value_snoc, decide_False; [done|]. by intros <-.
  - rewrite orb_false_r.
    destruct (decide (key r ∈ group_keys key rs)) as [Hin|Hnin].
    + rewrite bool_decide_eq_true_2 by eauto. cbn [negb].
      rewrite modify_keyed by apply distinct_NoDup.
      apply map_ext_in. intros k _. f_equal.
      rewrite group_value_snoc.
      destruct (decide (k = key r)) as [->|Hne].
      * by rewrite decide_True.
      * by rewrite decide_False.
    + rewrite bool_decide_eq_false_2 by (intros [? ?]; done). cbn [negb].
      rewrite assign_fresh, modify_last by done.
      rewrite map_app. cbn [map]. f_equal.
      * apply map_ext_in. intros k Hin%list_elem_of_In. f_equal.
        rewrite group_value_snoc, decide_False; [done|]. by intros <-.
      * rewrite group_value_snoc, decide_True by done.
        by rewrite group_value_fresh.
Qed.

Lemma fold_group_step_from rs rs' :
  fold_left (group_step key init upd) rs' (grouped key init upd rs)
  = grouped key init upd (rs ++ rs').
Proof.
  revert rs. induction rs' as [|r rs' IH]; intros rs; cbn [fold_left].
  - by rewrite app_nil_r.
  - rewrite group_step_grouped, IH. by rewrite <- app_assoc.
Qed.

(** A reducer made of [group_step]s computes [grouped]. *)
Lemma fold_group_step rs :
  fold_left (group_step key init upd) rs [] = grouped key init upd rs.
Proof. apply (fold_group_step_from []). Qed.

End grouping.

(** ** Enumeration order of a plain object *)

Lemma index_entries_values {V} (o : JsObject.t V) :
  (JsObject.index_entries o).*2
  = filter (λ kv, ¬ JsObject.array_index kv.1 = None) o.
Proof.
  unfold JsObject.index_entries.
  induction o as [|[k v] o IH]; [done|].
  destruct (JsObject.array_index k) as [n|] eqn:Hk.
  - rewrite filter_cons_True by (cbn; congruence). rewrite <- IH.
    cbn. by rewrite Hk.
  - rewrite filter_cons_False by (cbn; tauto). rewrite <- IH.
    cbn. by rewrite Hk.
Qed.

(** [Object.entries] lists exactly the own properties. *)
Lemma entries_Permutation {V} (o : JsObject.t V) : JsObject.entries o ≡ₚ o.
Proof.
  unfold JsObject.entries.
  rewrite merge_sort_Permutation, index_entries_values.
  rewrite Permutation_app_comm. apply filter_app_complement.
Qed.

Lemma entries_elem {V} (o : JsObject.t V) (kv : string * V) :
  kv ∈ JsObject.entries o ↔ kv ∈ o.
Proof. by rewrite entries_Permutation. Qed.

(** Without array indices among the names, [Object.entries] follows the
    creation order. *)
Lemma entries_creation_order {V} (o : JsObject.t V) :
  (∀ kv, kv ∈ o → JsObject.array_index kv.1 = None) → JsObject.entries o = o.
Proof.
  intros Hno. unfold JsObject.entries.
  assert (Hidx : JsObject.index_entries o = []).
  { unfold JsObject.index_entries.
    induction o as [|[k v] o IH]; [done|].
    pose proof (Hno (k, v) (list_elem_of_here _ _)) as Hk. cbn in Hk.
    cbn. rewrite Hk.
    apply IH. intros kv Hkv. apply Hno. by apply list_elem_of_further. }
  rewrite Hidx. clear Hidx. cbn [merge_sort fmap list_fmap app].
  change ((merge_sort JsObject.index_le []).*2) with (@nil (string * V)).
  cbn [app].
  induction o as [|kv o IH]; [done|].
  rewrite filter_cons_True by (apply Hno, list_elem_of_here).
  f_equal. apply IH.
  intros kv' Hkv'. apply Hno. by apply list_elem_of_further.
Qed.

(** ** Date keys *)

Lemma digit_code (n : nat) : nat_of_ascii (digit n) = (48 + n mod 10)%nat.
Proof.
  unfold digit. apply nat_ascii_embedding.
  pose proof (Nat.mod_upper_bound n 10 ltac:(lia)). lia.
Qed.

Lemma digit_not (c : ascii) (n : nat) :
  (nat_of_ascii c < 48 ∨ 57 < nat_of_ascii c)%nat → digit n ≠ c.
Proof.
  intros Hc <-. rewrite digit_code in Hc.
  pose proof (Nat.mod_upper_bound n 10 ltac:(lia)). lia.
Qed.

Lemma before_cons_ne (sep c : ascii) (s : string) :
  c ≠ sep → before sep (String c s) = String c (before sep s).
Proof. intros Hne. cbn. by rewrite decide_False. Qed.

Lemma before_cons_eq (sep : ascii) (s : string) :
  before sep (String sep s) = EmptyString.
Proof. cbn. by rewrite decide_True. Qed.

(** The key of a record is the calendar day of its date, [YYYY-MM-DD]. *)
Lemma dateKey_isoDay (d : Date) : dateKey d = isoDay d.
Proof.
  unfold dateKey, toISOString, isoDay, isoYear, pad6, pad4, pad3, pad2.
  destruct ((0 <=? utcFullYear d)%Z && (utcFullYear d <=? 9999)%Z);
    [|destruct (utcFullYear d <? 0)%Z]; lazy beta iota delta [String.append];
    repeat (rewrite before_cons_ne
              by (first [ apply digit_not; vm_compute; lia | discriminate ]));
    by rewrite before_cons_eq.
Qed.

Lemma parse_dec_dash (acc : N) (s1 s2 : string) :
  JsObject.parse_dec acc (s1 +:+ String "-" s2) = None.
Proof.
  revert acc. induction s1 as [|c s1 IH]; intros acc; [reflexivity|].
  change (JsObject.parse_dec acc (String c (s1 +:+ String "-" s2)) = None).
  cbn [JsObject.parse_dec].
  destruct (JsObject.digit_val c); [apply IH|done].
Qed.

Lemma array_index_dash (s1 s2 : string) :
  JsObject.array_index (s1 +:+ String "-" s2) = None.
Proof.
  unfold JsObject.array_index.
  destruct (s1 +:+ String "-" s2) as [|c rest] eqn:Hk; [done|].
  rewrite <- Hk, parse_dec_dash. by destruct (_ && _).
Qed.

Lemma isoDay_shape (d : Date) :
  ∃ c s1 s2, isoDay d = String c s1 +:+ String "-" s2
             ∧ (nat_of_ascii c ≤ 57)%nat.
Proof.
  unfold isoDay, isoYear, pad6, pad4, pad3, pad2.
  destruct ((0 <=? utcFullYear d)%Z && (utcFullYear d <=? 9999)%Z);
    [|destruct (utcFullYear d <? 0)%Z]; lazy beta iota delta [String.append].
  - eexists _, (String _ (String _ (String _ EmptyString))), _.
    split; [reflexivity|]. rewrite digit_code.
    match goal with |- (_ + ?x mod 10 ≤ _)%nat => generalize x end.
    intros m. pose proof (Nat.mod_upper_bound m 10 ltac:(lia)). lia.
  - eexists _, (String _ (String _ (String _ (String _ (String _
                  (String _ EmptyString)))))), _.
    split; [reflexivity|]. vm_compute. lia.
  - eexists _, (String _ (String _ (String _ (String _ (String _
                  (String _ EmptyString)))))), _.
    split; [reflexivity|]. vm_compute. lia.
Qed.

Lemma dateKey_not_index (d : Date) : JsObject.array_index (dateKey d) = None.
Proof.
  rewrite dateKey_isoDay. destruct (isoDay_shape d) as (c & s1 & s2 & -> & _).
  apply array_index_dash.
Qed.

(** No member of [Object.prototype] starts with a digit or a sign. *)
Lemma not_inherited_head (c : ascii) (s : string) :
  (nat_of_ascii c ≤ 57)%nat → JsObject.inherited (String c s) = false.
Proof.
  intros Hc. apply bool_decide_eq_false_2.
  unfold JsObject.proto_names. intros Hin.
  repeat (apply elem_of_cons in Hin as [Hin|Hin];
          [injection Hin as -> _; vm_compute in Hc; lia|]).
  by apply elem_of_nil in Hin.
Qed.

Lemma dateKey_not_inherited (d : Date) : JsObject.inherited (dateKey d) = false.
Proof.
  rewrite dateKey_isoDay. destruct (isoDay_shape d) as (c & s1 & s2 & -> & Hc).
  by apply (not_inherited_head c (s1 +:+ String "-" s2)).
Qed.

(** ** Attendance statistics *)

Lemma fold_left_same {A B} (f g : A → B → A) (l : list B) (a : A) :
  (∀ a b, f a b = g a b) → fold_left f l a = fold_left g l a.
Proof.
  intros Hfg. revert a. induction l as [|b l IH]; intros a; cbn; [done|].
  by rewrite Hfg, IH.
Qed.

Lemma attendanceByDate_step_group (acc : JsObject.t DayStats) (record : Attendance) :
  attendanceByDate_step acc record
  = group_step (λ r, dateKey (att_date r))
               (λ _, {| present := 0%float; total := 0%float |}) tally acc record.
Proof.
  unfold attendanceByDate_step, group_step, tally.
  destruct (bool_decide (att_status record = "PRESENT")).
  - by rewrite modify_twice.
  - done.
Qed.

(** The counters after a run of records: each has been incremented once per
    record it counts. *)
Lemma tally_fold (rs : list Attendance) (s : DayStats) :
  fold_left (λ v r, tally r v) rs s
  = {| present := count_from (present s) (length (present_records rs));
       total := count_from (total s) (length rs) |}.
Proof.
  revert s. induction rs as [|r rs IH]; intros [p t]; cbn [fold_left].
  - reflexivity.
  - rewrite IH. unfold tally, present_records. cbn [present total length].
    rewrite count_from_succ.
    destruct (decide (att_status r = "PRESENT")) as [Hr|Hr].
    + rewrite bool_decide_eq_true_2, filter_cons_True by done.
      cbn [length]. by rewrite count_from_succ.
    + by rewrite bool_decide_eq_false_2, filter_cons_False by done.
Qed.

Lemma attendance_keys (attendance : list Attendance) :
  group_keys (λ r, dateKey (att_date r)) attendance = days attendance.
Proof.
  unfold group_keys, days. f_equal. f_equal.
  induction attendance as [|r rs IH]; [done|].
  rewrite filter_cons_True by apply dateKey_not_inherited. by rewrite IH.
Qed.

(** The reducer leaves one entry per day, in order of first appearance,
    holding the count of the [PRESENT] records and of all records of the
    day. *)
Lemma attendanceByDate_days (attendance : list Attendance) :
  attendanceByDate attendance
  = map (λ day,
           (day, {| present := counted (length (present_records (on_day day attendance)));
                    total := counted (length (on_day day attendance)) |}))
        (days attendance).
Proof.
  unfold attendanceByDate.
  rewrite (fold_left_same _ _ _ _ attendanceByDate_step_group).
  rewrite fold_group_step. unfold grouped. rewrite attendance_keys.
  apply map_ext. intros day. f_equal. unfold group_value.
  by rewrite tally_fold.
Qed.

Lemma days_dateKey (attendance : list Attendance) (day : string) :
  day ∈ days attendance ↔ ∃ r, r ∈ attendance ∧ dateKey (att_date r) = day.
Proof.
  unfold days. rewrite distinct_elem, list_elem_of_fmap.
  split; [intros (r & -> & Hr); eauto|intros (r & Hr & <-); eauto].
Qed.

Lemma trends_of_days (attendance : list Attendance) :
  trends_of attendance
  = map (λ day, {| trend_date := day; attendanceRate := day_rate day attendance |})
        (days attendance).
Proof.
  unfold trends_of. rewrite entries_creation_order.
  - rewrite attendanceByDate_days, map_map. done.
  - rewrite attendanceByDate_days. intros [day s] Hin.
    apply list_elem_of_fmap in Hin as (day' & [= -> ->] & Hday).
    apply days_dateKey in Hday as (r & _ & <-). apply dateKey_not_index.
Qed.

Lemma averageAttendance_of_trends (attendance : list Attendance) :
  averageAttendance_of (trends_of attendance)
  = match days attendance with
    | [] => 0%float
    | _ => mean_daily_rate attendance
    end.
Proof.
  rewrite trends_of_days. unfold averageAttendance_of, mean_daily_rate, mean, sum.
  rewrite fold_add_map, map_map, !length_map. cbn [attendanceRate].
  destruct (days attendance) as [|day ds] eqn:Hd.
  - by rewrite bool_decide_eq_false_2 by (cbn; lia).
  - by rewrite bool_decide_eq_true_2 by (cbn; lia).
Qed.

Lemma getAttendanceStats_run (input : RangeInput) (w : World) :
  getAttendanceStats input w
  = (inr (attendanceStats (attendance_of input (prisma w))), w).
Proof. reflexivity. Qed.

Lemma ratio_3_of_4 : ratio_percent 3 4 = 75%float.
Proof. reflexivity. Qed.

Lemma three_of_four_selected :
  attendance_of february_2025 (prisma three_of_four)
  = db_attendance (prisma three_of_four).
Proof. reflexivity. Qed.

Lemma uneven_days_selected :
  attendance_of february_2025 (prisma uneven_days)
  = db_attendance (prisma uneven_days).
Proof. reflexivity. Qed.

(** The rate of a day is a rounded double: one present record out of three
    gives 33.33333333333333, not a third of 100. *)
Example getAttendanceStats_one_of_three :
  getAttendanceStats february_2025 one_of_three
  = (inr {| trends := [ {| trend_date := "2025-02-24";
                           attendanceRate := 0x1.0aaaaaaaaaaaap+5%float |} ];
            averageAttendance := 0x1.0aaaaaaaaaaaap+5%float |},
     one_of_three).
Proof. vm_compute. reflexivity. Qed.

(** C2, as the code has it. [getAttendanceStats] returns one trend per
    calendar day that has a record, in order of first appearance, and the
    day's [attendanceRate] is the count of its [PRESENT] records divided by
    the count of its records, times 100, in double arithmetic; a day with
    three [PRESENT] records out of four has the rate 75. *)
Theorem getAttendanceStats_daily_rates (input : RangeInput) (w : World) :
  ∃ stats,
    getAttendanceStats input w = (inr stats, w)
    ∧ trends stats
      = map (λ day, {| trend_date := day;
                       attendanceRate := day_rate day (attendance_of input (prisma w)) |})
            (days (attendance_of input (prisma w)))
    ∧ ∀ day,
        length (on_day day (attendance_of input (prisma w))) = 4%nat →
        length (present_records (on_day day (attendance_of input (prisma w)))) = 3%nat →
        {| trend_date := day; attendanceRate := 75%float |} ∈ trends stats.
Proof.
  eexists. split; [apply getAttendanceStats_run|].
  cbn [attendanceStats trends]. split; [apply trends_of_days|].
  intros day Htotal Hpresent. rewrite trends_of_days.
  apply list_elem_of_fmap. exists day. split.
  - unfold day_rate. by rewrite Htotal, Hpresent, ratio_3_of_4.
  - destruct (on_day day _) as [|r rs] eqn:Hday; [discriminate|].
    apply days_dateKey. exists r.
    assert (Hr : r ∈ on_day day (attendance_of input (prisma w))).
    { rewrite Hday. apply list_elem_of_here. }
    apply list_elem_of_filter in Hr as [? ?]. done.
Qed.

Lemma getAttendanceStats_daily_rates_witness :
  ∃ stats,
    getAttendanceStats february_2025 three_of_four = (inr stats, three_of_four)
    ∧ {| trend_date := "2025-02-24"; attendanceRate := 75%float |} ∈ trends stats.
Proof.
  destruct (getAttendanceStats_daily_rates february_2025 three_of_four)
    as (stats & Hrun & _ & Hday).
  exists stats. split; [exact Hrun|].
  apply Hday; reflexivity.
Defined.

(** C2 as stated fails: with three [PRESENT] records and one [ABSENT] record
    on a day, the rate returned for the day is 75, not 80. *)
Lemma getAttendanceStats_three_of_four_not_80 :
  ∃ stats,
    getAttendanceStats february_2025 three_of_four = (inr stats, three_of_four)
    ∧ length (db_attendance (prisma three_of_four)) = 4%nat
    ∧ length (present_records (db_attendance (prisma three_of_four))) = 3%nat
    ∧ trends stats = [ {| trend_date := "2025-02-24"; attendanceRate := 75%float |} ]
    ∧ 75%float ≠ 80%float.
Proof.
  eexists. split; [apply getAttendanceStats_run|].
  split; [reflexivity|]. split; [reflexivity|]. split; [|float_neq].
  cbn [attendanceStats trends]. rewrite trends_of_days, three_of_four_selected.
  reflexivity.
Qed.

(** C3. The [averageAttendance] that [getAttendanceStats] returns is the
    arithmetic mean of the per-day rates over the days that have a record, in
    double arithmetic: their sum from 0 in order of first appearance, divided
    by their number (0 when there is no record). It is not the present/total
    ratio over all records: on a store with a day of one record and a day of
    four the two differ, and the handler returns the per-day mean. *)
Theorem getAttendanceStats_average_of_daily_rates :
  (∀ (input : RangeInput) (w : World),
     ∃ stats,
       getAttendanceStats input w = (inr stats, w)
       ∧ averageAttendance stats
         = match days (attendance_of input (prisma w)) with
           | [] => 0%float
           | _ => mean_daily_rate (attendance_of input (prisma w))
           end)
  ∧ ∃ stats,
      getAttendanceStats february_2025 uneven_days = (inr stats, uneven_days)
      ∧ days (attendance_of february_2025 (prisma uneven_days))
        = ["2025-02-24"; "2025-02-25"]
      ∧ length (on_day "2025-02-24" (attendance_of february_2025 (prisma uneven_days)))
        = 1%nat
      ∧ length (on_day "2025-02-25" (attendance_of february_2025 (prisma uneven_days)))
        = 4%nat
      ∧ averageAttendance stats
        = mean_daily_rate (attendance_of february_2025 (prisma uneven_days))
      ∧ averageAttendance stats = 62.5%float
      ∧ global_rate (attendance_of february_2025 (prisma uneven_days)) = 40%float
      ∧ averageAttendance stats
        ≠ global_rate (attendance_of february_2025 (prisma uneven_days)).
Proof.
  split.
  - intros input w. eexists. split; [apply getAttendanceStats_run|].
    apply averageAttendance_of_trends.
  - eexists. split; [apply getAttendanceStats_run|].
    cbn [attendanceStats averageAttendance].
    rewrite averageAttendance_of_trends, uneven_days_selected.
    split; [reflexivity|]. split; [reflexivity|]. split; [reflexivity|].
    split; [reflexivity|]. split; [reflexivity|]. split; [reflexivity|].
    float_neq.
Qed.

(** ** Performance trends *)

(** The percentage the handler computes for a submission: [||] replaces
    missing, zero and [NaN] obtained marks by 0, and missing, zero and [NaN]
    total marks by 1. *)
Lemma percentage_marks_percent (sub : ActivitySubmission) :
  percentage sub = marks_percent sub.
Proof.
  unfold percentage, marks_percent, number_or, truthy_number.
  destruct (obtainedMarks sub) as [o|], (totalMarks sub) as [t|];
    try destruct (PrimFloat.is_nan o); try destruct (o =? 0)%float;
    try destruct (PrimFloat.is_nan t); try destruct (t =? 0)%float;
    reflexivity.
Qed.

(** The average the handler computes for an activity is the mean percentage
    of its submissions, and 0 for an activity without submissions. *)
Lemma activityAverage_mean (activity : ClassActivity) :
  activityAverage activity = activity_mean activity.
Proof.
  unfold activityAverage, activity_mean, length_or_1, mean, sum.
  rewrite fold_add_map, (map_ext _ _ percentage_marks_percent), length_map.
  destruct (submissions activity) as [|sub subs].
  - reflexivity.
  - by rewrite bool_decide_eq_false_2 by done.
Qed.

Lemma subjectWise_step_group (acc : JsObject.t SubjectTotals) (activity : ClassActivity) :
  subjectWise_step acc activity
  = group_step (λ a, subject_name (act_subject a))
               (λ k, {| st_subject := k; totalScore := 0%float; count := 0%float |})
               add_score acc activity.
Proof. unfold subjectWise_step, group_step. by rewrite modify_twice. Qed.

Lemma add_score_fold (activities : list ClassActivity) (d : SubjectTotals) :
  fold_left (λ v a, add_score a v) activities d
  = {| st_subject := st_subject d;
       totalScore := fold_left PrimFloat.add (map activity_mean activities) (totalScore d);
       count := count_from (count d) (length activities) |}.
Proof.
  revert d. induction activities as [|a rest IH]; intros [s t c]; cbn [fold_left].
  - reflexivity.
  - rewrite IH. unfold add_score. cbn [st_subject totalScore count map length fold_left].
    by rewrite count_from_succ, activityAverage_mean.
Qed.

(** The reducer leaves one entry per subject name, holding the sum of the
    averages of the subject's activities and their number. *)
Lemma subjectWise_grouped (activities : list ClassActivity) :
  subjectWise activities
  = map (λ k, (k, {| st_subject := k;
                     totalScore := sum (map activity_mean (of_subject k activities));
                     count := counted (length (of_subject k activities)) |}))
        (group_keys (λ a, subject_name (act_subject a)) activities).
Proof.
  unfold subjectWise.
  rewrite (fold_left_same _ _ _ _ subjectWise_step_group), fold_group_step.
  unfold grouped. apply map_ext. intros k. f_equal. unfold group_value.
  by rewrite add_score_fold.
Qed.

Lemma subjectPerformance_Permutation (activities : list ClassActivity) :
  subjectPerformance activities
  ≡ₚ map (λ k, {| perf_subject := k;
                  perf_averageScore := mean_of_activity_means k activities |})
         (group_keys (λ a, subject_name (act_subject a)) activities).
Proof.
  unfold subjectPerformance, JsObject.values.
  rewrite entries_Permutation, subjectWise_grouped.
  match goal with |- ?a ≡ₚ ?b => replace a with b; [done|] end.
  induction (group_keys _ activities) as [|k ks IH]; [done|].
  cbn [map]. rewrite IH. reflexivity.
Qed.

Lemma getPerformanceTrends_run (input : RangeInput) (w : World) :
  getPerformanceTrends input w
  = (inr {| pt_data := performanceData (activities_of input (prisma w));
            pt_subjectWise := subjectPerformance (activities_of input (prisma w)) |},
     w).
Proof. reflexivity. Qed.

(** The scores are rounded doubles: a submission at 57 out of 100 scores
    56.99999999999999, one without marks scores 0, and an activity without
    submissions averages 0. *)
Example getPerformanceTrends_partial_marks :
  getPerformanceTrends february_2025 partial_marks
  = (inr {| pt_data :=
              [ {| pp_date := "2025-02-10"; pp_averageScore := 0x1.c7fffffffffffp+4%float |};
                {| pp_date := "2025-02-11"; pp_averageScore := 0%float |} ];
            pt_subjectWise :=
              [ {| perf_subject := "Science"; perf_averageScore := 0x1.c7fffffffffffp+4%float |};
                {| perf_subject := "Art"; perf_averageScore := 0%float |} ] |},
     partial_marks)
  ∧ map marks_percent [marks 57 100; mkSubmission None None; marks 0 0; marks 3 0]
    = [ 0x1.c7fffffffffffp+5%float; 0%float; 0%float; 300%float ].
Proof. split; vm_compute; reflexivity. Qed.

(** C5, as the code has it. Every entry of [subjectWise] that
    [getPerformanceTrends] returns belongs to a subject with at least one
    activity, and its [averageScore] is the mean, over the activities of that
    subject, of each activity's mean submission percentage (0 for an activity
    without submissions), where the percentage of a submission is its
    obtained marks (0 when missing) over its total marks (1 when missing or
    zero) times 100, all in double arithmetic. There is one entry per subject
    name, and every subject of an activity has its entry unless its name is a
    member of [Object.prototype]. *)
Theorem getPerformanceTrends_subject_average (input : RangeInput) (w : World) :
  ∃ result,
    getPerformanceTrends input w = (inr result, w)
    ∧ (∀ e, e ∈ pt_subjectWise result →
            of_subject (perf_subject e) (activities_of input (prisma w)) ≠ []
            ∧ perf_averageScore e
              = mean_of_activity_means (perf_subject e) (activities_of input (prisma w)))
    ∧ NoDup (map perf_subject (pt_subjectWise result))
    ∧ (∀ a, a ∈ activities_of input (prisma w) →
            JsObject.inherited (subject_name (act_subject a)) = false →
            ∃ e, e ∈ pt_subjectWise result
                 ∧ perf_subject e = subject_name (act_subject a)).
Proof.
  eexists. split; [apply getPerformanceTrends_run|].
  cbn [pt_subjectWise]. set (activities := activities_of input (prisma w)).
  pose proof (subjectPerformance_Permutation activities) as Hperm.
  split; [|split].
  - intros e He. rewrite Hperm in He.
    apply list_elem_of_fmap in He as (k & -> & Hk). cbn. split; [|done].
    apply group_keys_elem in Hk as (_ & a & Ha & Hname).
    intros Hnil. assert (Hin : a ∈ of_subject k activities).
    { apply list_elem_of_filter. done. }
    rewrite Hnil in Hin. by apply elem_of_nil in Hin.
  - rewrite Hperm, map_map. cbn. rewrite map_id. apply distinct_NoDup.
  - intros a Ha Hinh. eexists. split.
    + rewrite Hperm. apply list_elem_of_fmap. eexists. split; [reflexivity|].
      apply group_keys_elem. eauto.
    + reflexivity.
Qed.

Lemma two_activities_selected :
  activities_of february_2025 (prisma two_activities)
  = db_classActivity (prisma two_activities).
Proof. reflexivity. Qed.

Lemma partial_marks_selected :
  activities_of february_2025 (prisma partial_marks)
  = db_classActivity (prisma partial_marks).
Proof. reflexivity. Qed.

Lemma getPerformanceTrends_subject_average_witness :
  ∃ result,
    getPerformanceTrends february_2025 partial_marks = (inr result, partial_marks)
    ∧ ∃ e, e ∈ pt_subjectWise result
           ∧ perf_subject e = "Science"
           ∧ perf_averageScore e
             = mean_of_activity_means "Science"
                 (activities_of february_2025 (prisma partial_marks))
           ∧ perf_averageScore e = 0x1.c7fffffffffffp+4%float.
Proof.
  destruct (getPerformanceTrends_subject_average february_2025 partial_marks)
    as (result & Hrun & Hsound & _ & Hcomplete).
  exists result. split; [exact Hrun|].
  destruct (Hcomplete (mkActivity "c1" (february 10) (mkSubject "Science")
                         [marks 57 100; mkSubmission None None])) as (e & He & Hname).
  - rewrite partial_marks_selected. apply list_elem_of_here.
  - reflexivity.
  - cbn in Hname. exists e. split; [exact He|]. split; [exact Hname|].
    destruct (Hsound e He) as [_ Hscore]. split.
    + rewrite <- Hname. exact Hscore.
    + rewrite Hscore, Hname. vm_compute. reflexivity.
Defined.

(** C5 as stated fails: for a subject with an activity of one submission at
    100% and an activity of three submissions at 0%, the returned
    [averageScore] is 50, the mean of the two activity means, while the mean
    over the four submissions of the subject is 25. *)
Lemma getPerformanceTrends_not_mean_over_submissions :
  ∃ result,
    getPerformanceTrends february_2025 two_activities = (inr result, two_activities)
    ∧ pt_subjectWise result
      = [ {| perf_subject := "Mathematics"; perf_averageScore := 50%float |} ]
    ∧ map marks_percent
        (flat_map submissions
           (of_subject "Mathematics" (activities_of february_2025 (prisma two_activities))))
      = [ 100%float; 0%float; 0%float; 0%float ]
    ∧ mean_over_submissions "Mathematics"
        (activities_of february_2025 (prisma two_activities))
      = 25%float
    ∧ 50%float ≠ 25%float.
Proof.
  eexists. split; [apply getPerformanceTrends_run|].
  split; [|split; [|split; [|float_neq]]]; vm_compute; reflexivity.
Qed.

(** ** Historical analytics *)

Lemma getHistoricalAnalytics_run (input : RangeInput) (w : World) :
  getHistoricalAnalytics input w
  = (inr {| ha_studentGrowth := studentGrowth (historicalStudents_of input (prisma w));
            historicalData := historicalStudents_of input (prisma w) |},
     w).
Proof. reflexivity. Qed.

Lemma studentGrowth_ends (first final : StudentProfile) (middle : list StudentProfile) :
  studentGrowth (first :: middle ++ [final])
  = (presence (sp_id final) - presence (sp_id first)) * hundred.
Proof.
  unfold studentGrowth.
  rewrite bool_decide_eq_true_2 by (cbn; rewrite length_app; cbn; lia).
  rewrite last_cons, last_snoc. cbn [head].
  destruct (truthy (sp_id first)); field; discriminate.
Qed.

Lemma studentGrowth_short (historicalStudents : list StudentProfile) :
  (length historicalStudents ≤ 1)%nat → studentGrowth historicalStudents = 0.
Proof.
  intros Hlen. unfold studentGrowth. by rewrite bool_decide_eq_false_2 by lia.
Qed.

(** C4, as the code has it. With more than one record, [studentGrowth] is the
    last record's presence value (1 if its id is set, 0 otherwise) minus the
    first record's, times 100: the divisor is 1 whether or not the first
    record's id is set, and the records in between and the number of records
    play no part. With zero or one record it is 0. *)
Theorem getHistoricalAnalytics_studentGrowth (input : RangeInput) (w : World) :
  ∃ result,
    getHistoricalAnalytics input w = (inr result, w)
    ∧ historicalData result = historicalStudents_of input (prisma w)
    ∧ (∀ first middle final,
         historicalData result = first :: middle ++ [final] →
         ha_studentGrowth result
         = (presence (sp_id final) - presence (sp_id first)) * hundred)
    ∧ ((length (historicalData result) ≤ 1)%nat → ha_studentGrowth result = 0).
Proof.
  eexists. split; [apply getHistoricalAnalytics_run|].
  cbn [historicalData ha_studentGrowth]. split; [done|]. split.
  - intros first middle final ->. apply studentGrowth_ends.
  - apply studentGrowth_short.
Qed.

Lemma getHistoricalAnalytics_studentGrowth_witness :
  ∃ result,
    getHistoricalAnalytics february_2025 unset_first_id = (inr result, unset_first_id)
    ∧ ha_studentGrowth result = (1 - 0) * hundred.
Proof.
  destruct (getHistoricalAnalytics_studentGrowth february_2025 unset_first_id)
    as (result & Hrun & Hdata & Hends & _).
  exists result. split; [exact Hrun|].
  apply (Hends (mkStudentProfile "" (Some "c1") (february 3)) []
               (mkStudentProfile "s2" (Some "c1") (february 4))).
  rewrite Hdata. reflexivity.
Defined.

(** C4 as stated fails: when the first of two records has no id set and the
    last one has, the first record's presence value is 0, so the difference
    1 has no quotient by it, and the formula of the specification does not
    give the 100 that the handler returns (it divides by 1). *)
Lemma getHistoricalAnalytics_divisor_is_not_presence :
  ∃ result first final,
    getHistoricalAnalytics february_2025 unset_first_id = (inr result, unset_first_id)
    ∧ historicalData result = [first; final]
    ∧ presence (sp_id first) = 0
    ∧ presence (sp_id final) = 1
    ∧ ha_studentGrowth result = hundred
    ∧ (∀ q : number, q * presence (sp_id first)
                     ≠ presence (sp_id final) - presence (sp_id first))
    ∧ studentGrowth_by_presence (historicalData result) ≠ ha_studentGrowth result.
Proof.
  eexists _, _, _. split; [apply getHistoricalAnalytics_run|].
  cbn [historicalData ha_studentGrowth].
  split; [reflexivity|]. split; [reflexivity|]. split; [reflexivity|].
  split; [qc_eq|]. split; [|qc_neq].
  intros q. change (presence (sp_id _)) with 0 at 1 3.
  change (presence (sp_id _)) with 1.
  intros H. ring_simplify in H. discriminate H.
Qed.

(** ** Lazy gradebook initialization *)

Lemma getGradebook_present (service : GradeBookService) (classId : string)
    (w : World) (gradeBook : GradeBook) :
  db_gradeBook (prisma w) !! classId = Some gradeBook →
  getGradebook service classId w
  = (inr gradeBook, mkWorld (prisma w) (journal w ++ [GradeBookFindUnique classId])).
Proof.
  intros Hfound.
  unfold getGradebook, try_catch, gradeBook_findUnique, await, record_event, query.
  cbn. by rewrite Hfound.
Qed.

Lemma getGradebook_absent_run (service : GradeBookService) (classId : string)
    (w : World) :
  db_gradeBook (prisma w) !! classId = None →
  getGradebook service classId w
  = match initializeGradeBook service classId (prisma w) with
    | (None, db') =>
        (match db_gradeBook db' !! classId with
         | Some newGradeBook => inr newGradeBook
         | None => inl (TRPCError NOT_FOUND "Failed to initialize gradebook" None)
         end,
         mkWorld db' (journal w ++ [ GradeBookFindUnique classId;
                                     InitializeGradeBook classId;
                                     GradeBookFindUnique classId ]))
    | (Some error, db') =>
        (inl (if isTRPCError error then error
              else TRPCError INTERNAL_SERVER_ERROR "Failed to fetch gradebook"
                             (Some error)),
         mkWorld db' (journal w ++ [ GradeBookFindUnique classId;
                                     InitializeGradeBook classId ]))
    end.
Proof.
  intros Habsent.
  unfold getGradebook, try_catch, gradeBook_findUnique, call_initializeGradeBook,
    await, record_event, query, resolve, throw.
  cbn. rewrite Habsent. cbn.
  destruct (initializeGradeBook service classId (prisma w)) as [[error|] db']; cbn.
  - rewrite <- app_assoc. cbn. by destruct (isTRPCError error).
  - rewrite <- !app_assoc. cbn. by destruct (db_gradeBook db' !! classId).
Qed.

(** C1. For a class without gradebook, [getGradebook] reads the gradebook,
    calls the initialization exactly once and reads the gradebook again. With
    the initialization routine of the specification the second read finds the
    gradebook the routine has stored for the class, and the handler returns
    it, with its assessment system, term structure and subject records, on
    that same call. Whatever the routine, when it returns and the second read
    still finds no gradebook, the handler throws [NOT_FOUND]. *)
Theorem getGradebook_lazy_initialization (classId : string) (w : World) :
  db_gradeBook (prisma w) !! classId = None →
  (∃ gradeBook w',
     getGradebook spec_service classId w = (inr gradeBook, w')
     ∧ journal w' = journal w ++ [ GradeBookFindUnique classId;
                                   InitializeGradeBook classId;
                                   GradeBookFindUnique classId ]
     ∧ initialize_calls [ GradeBookFindUnique classId; InitializeGradeBook classId;
                          GradeBookFindUnique classId ]
       = [classId]
     ∧ db_gradeBook (prisma w') !! classId = Some gradeBook
     ∧ gb_classId gradeBook = classId
     ∧ gradeBook = initialized_gradeBook classId)
  ∧ ∀ service db',
      initializeGradeBook service classId (prisma w) = (None, db') →
      ∃ w',
        getGradebook service classId w
        = (match db_gradeBook db' !! classId with
           | Some newGradeBook => inr newGradeBook
           | None => inl (TRPCError NOT_FOUND "Failed to initialize gradebook" None)
           end, w')
        ∧ prisma w' = db'
        ∧ journal w' = journal w ++ [ GradeBookFindUnique classId;
                                      InitializeGradeBook classId;
                                      GradeBookFindUnique classId ].
Proof.
  intros Habsent. split.
  - rewrite (getGradebook_absent_run _ _ _ Habsent).
    cbn [spec_service initializeGradeBook db_gradeBook].
    rewrite lookup_insert_eq. eexists _, _. split; [reflexivity|].
    cbn [journal prisma db_gradeBook]. rewrite lookup_insert_eq. done.
  - intros service db' Hinit. rewrite (getGradebook_absent_run _ _ _ Habsent), Hinit.
    eexists. split; [reflexivity|]. done.
Qed.

Lemma getGradebook_lazy_initialization_witness :
  (∃ w',
     getGradebook spec_service "c1" empty_world = (inr (initialized_gradeBook "c1"), w')
     ∧ journal w' = [ GradeBookFindUnique "c1"; InitializeGradeBook "c1";
                      GradeBookFindUnique "c1" ]
     ∧ db_gradeBook (prisma w') !! "c1" = Some (initialized_gradeBook "c1"))
  ∧ ∃ w',
      getGradebook {| initializeGradeBook := λ _ db, (None, db) |} "c1" empty_world
      = (inl (TRPCError NOT_FOUND "Failed to initialize gradebook" None), w')
      ∧ journal w' = [ GradeBookFindUnique "c1"; InitializeGradeBook "c1";
                       GradeBookFindUnique "c1" ].
Proof.
  assert (Habsent : db_gradeBook (prisma empty_world) !! "c1" = None) by reflexivity.
  destruct (getGradebook_lazy_initialization "c1" empty_world Habsent)
    as [(gradeBook & w' & Hrun & Hjournal & _ & Hstored & _ & ->) Hreturns].
  split.
  - exists w'. split; [exact Hrun|]. split; [exact Hjournal|exact Hstored].
  - destruct (Hreturns {| initializeGradeBook := λ _ db, (None, db) |}
                       (prisma empty_world) eq_refl)
      as (w'' & Hrun' & _ & Hjournal').
    exists w''. split; [exact Hrun'|exact Hjournal'].
Defined.

(** ** Searching classes *)

Lemma prefix_spec (needle hay : string) :
  String.prefix needle hay = true ↔ ∃ rest, hay = needle +:+ rest.
Proof.
  revert hay. induction needle as [|c needle IH]; intros hay.
  - split; [intros _; exists hay; reflexivity|by destruct hay].
  - destruct hay as [|c' hay]; cbn [String.prefix].
    + split; [done|]. intros [rest Hrest]. discriminate Hrest.
    + destruct (Ascii.ascii_dec c c') as [<-|Hne].
      * rewrite IH. split.
        -- intros [rest ->]. exists rest. reflexivity.
        -- intros [rest Hrest]. injection Hrest as ->. exists rest. reflexivity.
      * split; [done|]. intros [rest Hrest]. injection Hrest as -> _. done.
Qed.

(** [contains] is substring search. *)
Lemma contains_spec (needle hay : string) :
  contains needle hay = true ↔ ∃ left right, hay = left +:+ needle +:+ right.
Proof.
  induction hay as [|c hay IH]; cbn [contains].
  - rewrite orb_false_r, prefix_spec. split.
    + intros [rest ->]. exists EmptyString, rest. reflexivity.
    + intros ([|c left] & right & Heq); [exists right; exact Heq|discriminate Heq].
  - rewrite orb_true_iff, prefix_spec, IH. split.
    + intros [[rest ->]|(left & right & ->)].
      * exists EmptyString, rest. reflexivity.
      * exists (String c left), right. reflexivity.
    + intros ([|c' left] & right & Heq).
      * left. exists right. exact Heq.
      * right. injection Heq as -> ->. exists left, right. reflexivity.
Qed.

Lemma insert_by_name_Permutation (name_le : string → string → bool)
    (c : Class) (l : list Class) :
  insert_by_name name_le c l ≡ₚ c :: l.
Proof.
  induction l as [|c' l IH]; cbn; [done|].
  destruct (name_le _ _); [done|]. rewrite IH. apply Permutation_swap.
Qed.

Lemma order_by_name_Permutation (name_le : string → string → bool) (l : list Class) :
  order_by_name name_le l ≡ₚ l.
Proof.
  induction l as [|c l IH]; cbn; [done|].
  by rewrite insert_by_name_Permutation, IH.
Qed.

Lemma searchClasses_run (name_le : string → string → bool)
    (input : SearchClassesInput) (w : World) :
  searchClasses name_le input w
  = (inr (order_by_name name_le
            (filter (λ c, matches (searchClasses_where input) c = true)
                    (rows (prisma w)))),
     w).
Proof. reflexivity. Qed.

Lemma searchClasses_elem (name_le : string → string → bool)
    (input : SearchClassesInput) (w : World) (c : Class) :
  c ∈ order_by_name name_le
        (filter (λ c, matches (searchClasses_where input) c = true) (rows (prisma w)))
  ↔ c ∈ rows (prisma w) ∧ matches (searchClasses_where input) c = true.
Proof. rewrite order_by_name_Permutation, list_elem_of_filter. tauto. Qed.

Lemma matches_search (input : SearchClassesInput) (s : string) (c : Class) :
  sc_search input = Some s →
  matches (searchClasses_where input) c = true
  ↔ matches (searchClasses_where (without_search input)) c = true
    ∧ ∃ left right, lower (class_name c) = left +:+ lower s +:+ right.
Proof.
  intros Hs. unfold matches, searchClasses_where, without_search.
  cbn [where_status where_name_contains_insensitive where_classGroupId
       where_teachers_some_teacherId where_campus_id sc_classGroupId sc_search
       sc_teacherId sc_status sc_campusId].
  rewrite Hs. rewrite !andb_true_iff.
  assert (Hname :
    opt_holds (spread_if (Some s)) (λ s0, contains_insensitive s0 (class_name c)) = true
    ↔ ∃ left right, lower (class_name c) = left +:+ lower s +:+ right).
  { cbn [spread_if]. unfold truthy. destruct (decide (s = "")) as [->|Hne].
    - rewrite bool_decide_eq_true_2 by done. cbn [negb opt_holds].
      split; [|done]. intros _. exists EmptyString, (lower (class_name c)).
      reflexivity.
    - rewrite bool_decide_eq_false_2 by done. cbn [negb opt_holds].
      apply contains_spec. }
  rewrite Hname. cbn [spread_if opt_holds]. tauto.
Qed.

Lemma rows_elem (db : Db) (c : Class) :
  c ∈ rows db ↔ ∃ k, db_class db !! k = Some c.
Proof.
  unfold rows. rewrite list_elem_of_fmap. split.
  - intros ([k c'] & -> & Hkc). exists k. by apply elem_of_map_to_list.
  - intros (k & Hk). exists (k, c). split; [done|]. by apply elem_of_map_to_list.
Qed.

(** *** Case folding *)

Lemma upper_case_spec (k : nat) :
  ((65 <=? k)%nat && (k <=? 90)%nat = true ↔ (65 ≤ k ≤ 90)%nat)
  ∧ ((65 <=? k)%nat && (k <=? 90)%nat = false ↔ ¬ (65 ≤ k ≤ 90)%nat).
Proof.
  rewrite andb_true_iff, andb_false_iff, !Nat.leb_le, !Nat.leb_gt. lia.
Qed.

Lemma lower_ascii_same_letter (c d : ascii) :
  lower_ascii c = lower_ascii d ↔ same_letter c d.
Proof.
  pose proof (nat_ascii_bounded c) as Hc. pose proof (nat_ascii_bounded d) as Hd.
  pose proof (ascii_nat_embedding c) as Ec. pose proof (ascii_nat_embedding d) as Ed.
  unfold lower_ascii, same_letter.
  remember (nat_of_ascii c) as n eqn:Hn. remember (nat_of_ascii d) as m eqn:Hm.
  destruct ((65 <=? n)%nat && (n <=? 90)%nat) eqn:Un;
    destruct ((65 <=? m)%nat && (m <=? 90)%nat) eqn:Um;
    apply upper_case_spec in Un; apply upper_case_spec in Um.
  - split.
    + intros H. apply (f_equal nat_of_ascii) in H.
      rewrite !nat_ascii_embedding in H by lia.
      left. rewrite <- Ec, <- Ed. f_equal. lia.
    + intros [Hcd|(upper & Hu & [[? ?]|[? ?]])]; [|lia..].
      congruence.
  - split.
    + intros H. apply (f_equal nat_of_ascii) in H.
      rewrite nat_ascii_embedding in H by lia. rewrite <- Hm in H.
      right. exists n. split; [lia|]. left. split; [done|lia].
    + intros [Hcd|(upper & Hu & [[? ?]|[? ?]])]; [assert (n = m) by congruence; lia| |lia].
      rewrite <- Ed. f_equal. lia.
  - split.
    + intros H. apply (f_equal nat_of_ascii) in H.
      rewrite nat_ascii_embedding in H by lia. rewrite <- Hn in H.
      right. exists m. split; [lia|]. right. split; [lia|done].
    + intros [Hcd|(upper & Hu & [[? ?]|[? ?]])]; [assert (n = m) by congruence; lia|lia|].
      rewrite <- Ec. f_equal. lia.
  - split; [by left|].
    intros [Hcd|(upper & Hu & [[? ?]|[? ?]])]; [done|lia..].
Qed.

Lemma lower_equal_ignoring_case (s t : string) :
  lower s = lower t ↔ equal_ignoring_case s t.
Proof.
  revert t. induction s as [|c s IH]; intros [|d t]; cbn [lower equal_ignoring_case];
    try (split; [discriminate|done]); [done|].
  rewrite <- IH, <- lower_ascii_same_letter. split.
  - intros H. injection H as H1 H2. done.
  - intros [-> ->]. done.
Qed.

Lemma lower_app (s t : string) : lower (s +:+ t) = lower s +:+ lower t.
Proof.
  induction s as [|c s IH]; [done|].
  change (String c s +:+ t) with (String c (s +:+ t)). cbn [lower].
  rewrite IH. reflexivity.
Qed.

Lemma lower_split (x a b : string) :
  lower x = a +:+ b → ∃ x1 x2, x = x1 +:+ x2 ∧ lower x1 = a ∧ lower x2 = b.
Proof.
  revert x. induction a as [|c a IH]; intros x Hx.
  - exists EmptyString, x. done.
  - destruct x as [|d x]; [discriminate Hx|].
    change (String c a +:+ b) with (String c (a +:+ b)) in Hx. cbn [lower] in Hx.
    injection Hx as Hc Hrest. destruct (IH x Hrest) as (x1 & x2 & -> & <- & <-).
    exists (String d x1), x2. rewrite <- Hc. done.
Qed.

(** The store's insensitive [contains] finds the needle exactly when it
    occurs in the text up to the case of the letters. *)
Lemma contains_insensitive_spec (needle hay : string) :
  contains_insensitive needle hay = true ↔ occurs_ignoring_case needle hay.
Proof.
  unfold contains_insensitive, occurs_ignoring_case. rewrite contains_spec. split.
  - intros (left & right & Hhay).
    destruct (lower_split _ _ _ Hhay) as (l & rest & -> & _ & Hrest).
    destruct (lower_split _ _ _ Hrest) as (m & r & -> & Hm & _).
    exists l, m, r. split; [done|]. by apply lower_equal_ignoring_case.
  - intros (l & m & r & -> & Hm). apply lower_equal_ignoring_case in Hm.
    exists (lower l), (lower r). by rewrite !lower_app, Hm.
Qed.

Lemma occurs_ignoring_case_empty (hay : string) : occurs_ignoring_case "" hay.
Proof. exists EmptyString, EmptyString, hay. done. Qed.

Lemma matches_search_ignoring_case (input : SearchClassesInput) (s : string) (c : Class) :
  sc_search input = Some s →
  matches (searchClasses_where input) c = true
  ↔ matches (searchClasses_where (without_search input)) c = true
    ∧ occurs_ignoring_case s (class_name c).
Proof.
  intros Hs. rewrite (matches_search input s c Hs).
  assert (Hname :
    (∃ left right, lower (class_name c) = left +:+ lower s +:+ right)
    ↔ occurs_ignoring_case s (class_name c)).
  { rewrite <- contains_insensitive_spec. unfold contains_insensitive.
    by rewrite contains_spec. }
  by rewrite Hname.
Qed.

(** C6. Without any filter, [searchClasses] returns exactly the classes of
    the store whose status is [ACTIVE]. With a search string, a class is
    returned exactly when it passes the other filters and its name has a
    substring equal to the search string up to the case of the letters. *)
Theorem searchClasses_defaults (name_le : string → string → bool) (w : World) :
  (∃ classes,
     searchClasses name_le no_filters w = (inr classes, w)
     ∧ ∀ c, c ∈ classes ↔ c ∈ rows (prisma w) ∧ class_status c = ACTIVE)
  ∧ ∀ input s,
      sc_search input = Some s →
      ∃ classes,
        searchClasses name_le input w = (inr classes, w)
        ∧ ∀ c, c ∈ classes
               ↔ c ∈ rows (prisma w)
                 ∧ matches (searchClasses_where (without_search input)) c = true
                 ∧ occurs_ignoring_case s (class_name c).
Proof.
  split.
  - eexists. split; [apply searchClasses_run|]. intros c.
    rewrite searchClasses_elem. unfold matches. cbn.
    rewrite !andb_true_r, bool_decide_eq_true. tauto.
  - intros input s Hs. eexists. split; [apply searchClasses_run|]. intros c.
    rewrite searchClasses_elem, (matches_search_ignoring_case input s c Hs). tauto.
Qed.

Lemma searchClasses_defaults_witness :
  ∃ classes,
    searchClasses String.leb (mkSearchClassesInput None (Some "GRADE") None None None)
      three_classes
    = (inr classes, three_classes)
    ∧ class_row "k1" "Grade 7 Blue" ACTIVE ∈ classes
    ∧ class_row "k2" "Grade 8 Red" INACTIVE ∉ classes.
Proof.
  destruct (searchClasses_defaults String.leb three_classes) as [_ Hsearch].
  destruct (Hsearch (mkSearchClassesInput None (Some "GRADE") None None None) "GRADE"
                    eq_refl) as (classes & Hrun & Hiff).
  exists classes. split; [exact Hrun|]. split.
  - apply Hiff. split; [apply rows_elem; exists "k1"; reflexivity|].
    split; [reflexivity|].
    exists "", "Grade", " 7 Blue". split; [reflexivity|].
    cbn [equal_ignoring_case]. repeat split; try (left; reflexivity).
    + right. exists 82%nat. split; [lia|]. right. split; reflexivity.
    + right. exists 65%nat. split; [lia|]. right. split; reflexivity.
    + right. exists 68%nat. split; [lia|]. right. split; reflexivity.
    + right. exists 69%nat. split; [lia|]. right. split; reflexivity.
  - intros Hin. apply Hiff in Hin as (_ & Hmatch & _). discriminate Hmatch.
Defined.

(** ** Deleting a class *)

(** C7. [deleteClass] on an id no class has throws the store's
    record-not-found error to the caller and leaves the store as it was,
    whatever the database does when it deletes a row that exists. *)
Theorem deleteClass_missing (onDelete : Class → Db → Exn + Db) (input : string)
    (w : World) :
  db_class (prisma w) !! input = None →
  deleteClass onDelete input w = (inl P2025, w).
Proof.
  intros Hmissing. unfold deleteClass, class_delete. by rewrite Hmissing.
Qed.

Lemma deleteClass_missing_witness :
  deleteClass restrict "k9" three_classes = (inl P2025, three_classes)
  ∧ deleteClass cascade "k9" three_classes = (inl P2025, three_classes).
Proof. split; apply deleteClass_missing; reflexivity. Defined.

(** ** Creating a class *)

Lemma createClass_run (input : ClassCreate) (w : World) :
  createClass input w
  = class_create
      (createClass_data input
         (filter (λ p, tp_userId p ∈ createClass_userIds input)
                 (db_teacherProfile (prisma w))))
      w.
Proof. reflexivity. Qed.

Lemma connectable_spec (ids : gset string) (o : option string) :
  connectable ids o = true ↔ ∀ i, o = Some i → i ∈ ids.
Proof.
  destruct o as [i|]; cbn.
  - rewrite bool_decide_eq_true. split; [by intros ? ? [= <-]|eauto].
  - split; [by intros|done].
Qed.

(** C9, as the code has it. For an input the schema accepts, the record
    [createClass] creates is connected to the supplied class group and
    campus, to the supplied building and room when these are present and not
    empty, and to no building or room when they are omitted or empty; and
    the record is created whenever the connected records exist and the
    store's next id is free. *)
Theorem createClass_relations (input : ClassCreate) (w : World) :
  classCreateSchema input = true →
  (∀ c w',
     createClass input w = (inr c, w') →
     classGroupId c = cc_classGroupId input
     ∧ campusId c = cc_campusId input
     ∧ buildingId c = spread_if (cc_buildingId input)
     ∧ roomId c = spread_if (cc_roomId input)
     ∧ db_class (prisma w') !! class_id c = Some c)
  ∧ (connect_targets_exist input (prisma w) →
     db_class (prisma w) !! db_nextId (prisma w) = None →
     ∃ c w', createClass input w = (inr c, w')).
Proof.
  intros _. rewrite createClass_run. unfold class_create. split.
  - intros c w'. destruct (negb _); [discriminate|].
    destruct (db_class (prisma w) !! db_nextId (prisma w)); [discriminate|].
    intros [= <- <-]. cbn. repeat (split; [reflexivity|]).
    apply lookup_insert_eq.
  - intros (Hgroup & Hcampus & Hbuilding & Hroom) Hfree.
    cbn [createClass_data data_classGroup_connect data_campus_connect
         data_building_connect data_room_connect].
    rewrite !bool_decide_eq_true_2 by done.
    rewrite (proj2 (connectable_spec _ _) Hbuilding).
    rewrite (proj2 (connectable_spec _ _) Hroom).
    cbn [andb negb]. rewrite Hfree. by eexists _, _.
Qed.

Lemma createClass_relations_witness :
  ∃ c w',
    createClass housed_class three_classes = (inr c, w')
    ∧ classGroupId c = "g1" ∧ campusId c = "campus1"
    ∧ buildingId c = Some "b1" ∧ roomId c = Some "r1"
    ∧ db_class (prisma w') !! class_id c = Some c.
Proof.
  destruct (createClass_relations housed_class three_classes) as [Hrel Hrun].
  - reflexivity.
  - destruct Hrun as (c & w' & Hrun).
    + split; [|split; [|split]]; try (intros ? [= <-]); vm_compute; reflexivity.
    + reflexivity.
    + exists c, w'. split; [exact Hrun|]. apply (Hrel c w' Hrun).
Defined.

(** C9 as stated fails: a building id and a room id that are present but
    empty pass the schema, and the created record is connected to no
    building and no room rather than to the supplied ids. *)
Lemma createClass_blank_building_not_connected :
  classCreateSchema blank_building = true
  ∧ cc_buildingId blank_building = Some ""
  ∧ cc_roomId blank_building = Some ""
  ∧ ∃ c w',
      createClass blank_building three_classes = (inr c, w')
      ∧ buildingId c = None
      ∧ roomId c = None.
Proof.
  split; [reflexivity|]. split; [reflexivity|]. split; [reflexivity|].
  eexists _, _. split; [reflexivity|]. split; reflexivity.
Qed.

(** ** Sessions *)

(** C10. Without a user id in the session, [getTeacherClasses] returns the
    empty array and does not touch the store, where [list] throws
    [UNAUTHORIZED] when there is no session. *)
Theorem getTeacherClasses_without_user (session : option Session) (w : World) :
  truthy_opt (session_user_id session) = false →
  getTeacherClasses session w = (inr [], w)
  ∧ list_classes None w
    = (inl (TRPCError UNAUTHORIZED "You must be logged in to access this resource" None),
       w).
Proof.
  intros Hid. split; [|reflexivity].
  unfold getTeacherClasses. destruct (session_user_id session) as [userId|].
  - cbn in Hid. by rewrite Hid.
  - reflexivity.
Qed.

Lemma getTeacherClasses_without_user_witness :
  getTeacherClasses None three_classes = (inr [], three_classes)
  ∧ getTeacherClasses anonymous_session three_classes = (inr [], three_classes)
  ∧ list_classes None three_classes
    = (inl (TRPCError UNAUTHORIZED "You must be logged in to access this resource" None),
       three_classes).
Proof.
  destruct (getTeacherClasses_without_user None three_classes) as [Hnone Hlist];
    [reflexivity|].
  destruct (getTeacherClasses_without_user anonymous_session three_classes)
    as [Hanonymous _]; [reflexivity|].
  split; [exact Hnone|]. split; [exact Hanonymous|exact Hlist].
Defined.

(** ** The teacher edit page *)

(** C8, as the code has it. For an existing teacher without profile neither
    variant of the page throws; both render the form. The second variant
    hands it default values: the empty string for a missing name, email or
    phone number and for the specialization, [CLASS] for the teacher type and
    empty lists for the campus, subject and class ids. The first variant
    hands it the teacher as fetched, with the missing fields and the profile
    [undefined]. *)
Theorem EditTeacherPage_without_profile {S C : Type} (params : Page.Params)
    (teacher : Page.Teacher) (subjects : list S) (classes : list C) :
  truthy (Page.id params) = true →
  Page.teacherProfile teacher = None →
  Page.EditTeacherPage params (inr (Some teacher, subjects, classes))
  = Page.TeacherForm (Page.id params)
      {| Page.name := or_default (Page.teacher_name teacher) "";
         Page.email := or_default (Page.teacher_email teacher) "";
         Page.phoneNumber := or_default (Page.teacher_phoneNumber teacher) "";
         Page.teacherType := "CLASS";
         Page.specialization := "";
         Page.campusIds := [];
         Page.subjectIds := [];
         Page.classIds := [] |}
      subjects classes
  ∧ Page.EditTeacherPage_1 params (inr (Some teacher, subjects, classes))
    = Page.TeacherForm (Page.id params)
        {| Page.teacher_id := Page.teacher_id teacher;
           Page.teacher_name := Page.teacher_name teacher;
           Page.teacher_email := Page.teacher_email teacher;
           Page.teacher_phoneNumber := Page.teacher_phoneNumber teacher;
           Page.teacher_status := Page.teacher_status teacher;
           Page.teacherProfile := None |}
        subjects classes.
Proof.
  intros Hid Hprofile.
  unfold Page.EditTeacherPage, Page.EditTeacherPage_1,
    Page.sanitizedTeacher, Page.sanitizedTeacher_1.
  rewrite Hid, Hprofile. cbn. split; [reflexivity|].
  by destruct (Page.teacher_name teacher), (Page.teacher_email teacher),
    (Page.teacher_phoneNumber teacher).
Qed.

Lemma EditTeacherPage_without_profile_witness :
  Page.EditTeacherPage edit_t1 (inr (Some bare_teacher, @nil string, @nil string))
  = Page.TeacherForm "t1" (Page.mkFormValues "" "" "" "CLASS" "" [] [] []) [] [].
Proof.
  destruct (EditTeacherPage_without_profile edit_t1 bare_teacher
              (@nil string) (@nil string)) as [Hdefaults _].
  - reflexivity.
  - reflexivity.
  - exact Hdefaults.
Defined.

(** C8 as stated fails for the first variant of the page: for a teacher
    without name, email, phone number and profile the form does not get empty
    strings and empty lists, it gets the fields [undefined] and no profile. *)
Lemma EditTeacherPage_1_passes_undefined :
  ∃ initialData,
    Page.EditTeacherPage_1 edit_t1 (inr (Some bare_teacher, @nil string, @nil string))
    = Page.TeacherForm "t1" initialData [] []
    ∧ Page.teacher_name initialData = None
    ∧ Page.teacher_email initialData = None
    ∧ Page.teacher_phoneNumber initialData = None
    ∧ Page.teacherProfile initialData = None
    ∧ Page.teacher_name initialData ≠ Some "".
Proof.
  eexists. split; [reflexivity|]. cbn. repeat (split; [reflexivity|]). discriminate.
Qed.

(** * Further properties of the router and the page *)

(** ** Gradebook *)

(** X1. Once [getGradebook] has returned a gradebook for a class, calling it
    again for that class returns the same gradebook with a single read: the
    initialization is not called again and the store stays as it is. This
    holds whether the first call found the gradebook or created it. *)
Theorem getGradebook_again (service : GradeBookService) (classId : string)
    (w w' : World) (gradeBook : GradeBook) :
  getGradebook service classId w = (inr gradeBook, w') →
  getGradebook service classId w'
  = (inr gradeBook, mkWorld (prisma w') (journal w' ++ [GradeBookFindUnique classId])).
Proof.
  intros Hfirst. apply getGradebook_present.
  destruct (db_gradeBook (prisma w) !! classId) as [found|] eqn:Hfound.
  - rewrite (getGradebook_present _ _ _ _ Hfound) in Hfirst.
    by injection Hfirst as <- <-.
  - rewrite (getGradebook_absent_run _ _ _ Hfound) in Hfirst.
    destruct (initializeGradeBook service classId (prisma w)) as [[error|] db'];
      [discriminate|].
    destruct (db_gradeBook db' !! classId) as [created|] eqn:Hcreated;
      [|discriminate].
    by injection Hfirst as <- <-.
Qed.

Lemma getGradebook_again_witness :
  ∃ w' w'',
    getGradebook creating_service "c1" empty_world = (inr (sample_gradeBook "c1"), w')
    ∧ getGradebook creating_service "c1" w' = (inr (sample_gradeBook "c1"), w'')
    ∧ initialize_calls (journal w'') = ["c1"].
Proof.
  eexists _, _. split; [reflexivity|]. split.
  - apply (getGradebook_again creating_service "c1" empty_world). reflexivity.
  - reflexivity.
Defined.



(** ** Reading, creating and deleting a class *)

Lemma getClassDetails_run (id : string) (w : World) :
  getClassDetails id w
  = (match db_class (prisma w) !! id with
     | Some c => inr c
     | None => inl (TRPCError NOT_FOUND "Class not found" None)
     end, w).
Proof.
  unfold getClassDetails, await, class_findUnique, query. cbn.
  by destruct (db_class (prisma w) !! id).
Qed.

(** X3. For an id no class has, [getClass] and [getById] resolve to [null]
    while [getClassDetails] throws [NOT_FOUND]; none of them changes the
    store. *)
Theorem missing_class_lookups (id : string) (w : World) :
  db_class (prisma w) !! id = None →
  getClass id w = (inr None, w)
  ∧ getById id w = (inr None, w)
  ∧ getClassDetails id w = (inl (TRPCError NOT_FOUND "Class not found" None), w).
Proof.
  intros Hmissing. rewrite getClassDetails_run.
  unfold getClass, getById, class_findUnique, query. by rewrite Hmissing.
Qed.

Lemma missing_class_lookups_witness :
  getClass "k9" three_classes = (inr None, three_classes)
  ∧ getById "k9" three_classes = (inr None, three_classes)
  ∧ getClassDetails "k9" three_classes
    = (inl (TRPCError NOT_FOUND "Class not found" None), three_classes).
Proof. apply missing_class_lookups. reflexivity. Defined.

Lemma createClass_created (input : ClassCreate) (w w' : World) (c : Class) :
  createClass input w = (inr c, w') →
  db_class (prisma w) !! class_id c = None
  ∧ class_id c = db_nextId (prisma w)
  ∧ prisma w' = with_class (prisma w) (<[class_id c := c]> (db_class (prisma w)))
                           (next_id (class_id c))
  ∧ journal w' = journal w
  ∧ teachers c
    = data_teachers_createMany
        (createClass_data input
           (filter (λ p, tp_userId p ∈ createClass_userIds input)
                   (db_teacherProfile (prisma w)))).
Proof.
  rewrite createClass_run. unfold class_create.
  destruct (negb _); [discriminate|].
  destruct (db_class (prisma w) !! db_nextId (prisma w)) eqn:Hfree; [discriminate|].
  intros [= <- <-]. cbn. done.
Qed.

(** X4. A class that [createClass] has created is found under its id:
    [getClassDetails] returns the created record and [getClass] and [getById]
    resolve to it. *)
Theorem createClass_then_lookup (input : ClassCreate) (w w' : World) (c : Class) :
  createClass input w = (inr c, w') →
  getClassDetails (class_id c) w' = (inr c, w')
  ∧ getClass (class_id c) w' = (inr (Some c), w')
  ∧ getById (class_id c) w' = (inr (Some c), w').
Proof.
  intros Hcreate.
  destruct (createClass_created _ _ _ _ Hcreate) as (_ & _ & Hdb & _).
  assert (Hfound : db_class (prisma w') !! class_id c = Some c).
  { rewrite Hdb. cbn. apply lookup_insert_eq. }
  rewrite getClassDetails_run.
  unfold getClass, getById, class_findUnique, query. by rewrite Hfound.
Qed.

Lemma createClass_then_lookup_witness :
  ∃ c w',
    createClass housed_class three_classes = (inr c, w')
    ∧ getClassDetails (class_id c) w' = (inr c, w').
Proof.
  eexists _, _. split; [reflexivity|].
  edestruct (createClass_then_lookup housed_class three_classes) as [Hdetails _];
    [reflexivity|exact Hdetails].
Defined.

(** ** The teachers of a created class *)

(** [[...(teacherIds || []), classTutorId].filter(Boolean)] keeps the
    non-empty ids among the teacher ids and the tutor id. *)
Lemma createClass_userIds_elem (input : ClassCreate) (u : string) :
  u ∈ createClass_userIds input
  ↔ truthy u = true
    ∧ (u ∈ default [] (cc_teacherIds input) ∨ cc_classTutorId input = Some u).
Proof.
  unfold createClass_userIds. rewrite list_elem_of_omap. split.
  - intros (o & Ho & Hu). destruct o as [s|]; [|discriminate].
    cbn in Hu. destruct (truthy s) eqn:Hs; [|discriminate].
    injection Hu as <-. split; [done|].
    apply elem_of_app in Ho as [Ho|Ho].
    + left. apply list_elem_of_fmap in Ho as (s' & [= ->] & Hs'). done.
    + right. by apply list_elem_of_singleton in Ho.
  - intros (Hu & [Hin|Htutor]); exists (Some u); (split; [|by cbn; rewrite Hu]).
    + apply elem_of_app. left. by apply list_elem_of_fmap_2.
    + apply elem_of_app. right. rewrite Htutor. apply list_elem_of_here.
Qed.

Lemma createClass_succeeds (input : ClassCreate) (w : World) :
  connect_targets_exist input (prisma w) →
  db_class (prisma w) !! db_nextId (prisma w) = None →
  ∃ c w', createClass input w = (inr c, w').
Proof.
  intros (Hgroup & Hcampus & Hbuilding & Hroom) Hfree.
  rewrite createClass_run. unfold class_create.
  cbn [createClass_data data_classGroup_connect data_campus_connect
       data_building_connect data_room_connect].
  rewrite !bool_decide_eq_true_2 by done.
  rewrite (proj2 (connectable_spec _ _) Hbuilding).
  rewrite (proj2 (connectable_spec _ _) Hroom).
  cbn [andb negb]. rewrite Hfree. by eexists _, _.
Qed.

(** X7. When the records to connect exist and the next id is free,
    [createClass] creates the class whether or not the requested teachers
    have a profile, and the teacher rows of the created class are, in the
    order of the store, one row for each teacher profile whose user id is
    not empty and is the class tutor's or one of the teacher ids of the
    request, and no other row. Each row is [ACTIVE] and is the class
    teacher's exactly when the profile belongs to the tutor. *)
Theorem createClass_teachers (input : ClassCreate) (w : World) :
  connect_targets_exist input (prisma w) →
  db_class (prisma w) !! db_nextId (prisma w) = None →
  ∃ c w',
    createClass input w = (inr c, w')
    ∧ teachers c
      = map (λ p, {| teacherId := tp_id p;
                     isClassTeacher :=
                       bool_decide (Some (tp_userId p) = cc_classTutorId input);
                     tc_status := ACTIVE |})
            (filter (λ p, truthy (tp_userId p) = true
                          ∧ (tp_userId p ∈ default [] (cc_teacherIds input)
                             ∨ cc_classTutorId input = Some (tp_userId p)))
                    (db_teacherProfile (prisma w))).
Proof.
  intros Htargets Hfree.
  destruct (createClass_succeeds input w Htargets Hfree) as (c & w' & Hcreate).
  exists c, w'. split; [exact Hcreate|].
  destruct (createClass_created _ _ _ _ Hcreate) as (_ & _ & _ & _ & ->).
  cbn [createClass_data data_teachers_createMany]. f_equal.
  apply list_filter_iff. intros p. apply createClass_userIds_elem.
Qed.

Lemma createClass_teachers_witness :
  ∃ c w',
    createClass tutored_class with_teacher_u1 = (inr c, w')
    ∧ teachers c = [ {| teacherId := "tp1"; isClassTeacher := true; tc_status := ACTIVE |} ].
Proof.
  destruct (createClass_teachers tutored_class with_teacher_u1)
    as (c & w' & Hcreate & Hteachers).
  - split; [|split; [|split]]; try (intros ? [= <-]); vm_compute; reflexivity.
  - reflexivity.
  - exists c, w'. split; [exact Hcreate|]. rewrite Hteachers. reflexivity.
Defined.

(** ** The classes of a teacher, and all classes *)

Lemma getTeacherClasses_run (userId : string) (w : World) :
  truthy userId = true →
  getTeacherClasses (session_of userId) w
  = (inr (filter (λ c, taught_by userId (prisma w) c = true) (rows (prisma w))), w).
Proof. intros Huser. unfold getTeacherClasses. cbn. by rewrite Huser. Qed.

Lemma created_teacher_row (input : ClassCreate) (w w' : World) (c : Class)
    (p : TeacherProfile) :
  createClass input w = (inr c, w') →
  p ∈ db_teacherProfile (prisma w) →
  tp_userId p ∈ createClass_userIds input →
  {| teacherId := tp_id p;
     isClassTeacher := bool_decide (Some (tp_userId p) = cc_classTutorId input);
     tc_status := ACTIVE |} ∈ teachers c.
Proof.
  intros Hcreate Hp Hids.
  destruct (createClass_created _ _ _ _ Hcreate) as (_ & _ & _ & _ & ->).
  cbn [createClass_data data_teachers_createMany].
  apply list_elem_of_fmap. exists p. split; [done|].
  by apply list_elem_of_filter.
Qed.

(** X9. A class created with a tutor who has a teacher profile is among
    the classes [getTeacherClasses] returns to that tutor afterwards. *)
Theorem createClass_then_getTeacherClasses (input : ClassCreate) (w w' : World)
    (c : Class) (p : TeacherProfile) :
  createClass input w = (inr c, w') →
  p ∈ db_teacherProfile (prisma w) →
  cc_classTutorId input = Some (tp_userId p) →
  truthy (tp_userId p) = true →
  ∃ classes,
    getTeacherClasses (session_of (tp_userId p)) w' = (inr classes, w')
    ∧ c ∈ classes.
Proof.
  intros Hcreate Hp Htutor Htruthy.
  rewrite (getTeacherClasses_run _ _ Htruthy). eexists. split; [reflexivity|].
  destruct (createClass_created _ _ _ _ Hcreate) as (_ & _ & Hdb & _).
  apply list_elem_of_filter. split.
  - unfold taught_by. apply existsb_exists.
    exists {| teacherId := tp_id p;
              isClassTeacher := bool_decide (Some (tp_userId p) = cc_classTutorId input);
              tc_status := ACTIVE |}.
    split.
    + apply list_elem_of_In, (created_teacher_row _ _ _ _ _ Hcreate Hp).
      apply createClass_userIds_elem. auto.
    + apply existsb_exists. exists p. split.
      * apply list_elem_of_In. by rewrite Hdb.
      * cbn. by rewrite !bool_decide_eq_true_2.
  - apply rows_elem. exists (class_id c). rewrite Hdb. cbn. apply lookup_insert_eq.
Qed.

Lemma createClass_then_getTeacherClasses_witness :
  ∃ c w' classes,
    createClass tutored_class with_teacher_u1 = (inr c, w')
    ∧ getTeacherClasses (session_of "u1") w' = (inr classes, w')
    ∧ c ∈ classes.
Proof.
  destruct (createClass_then_getTeacherClasses tutored_class with_teacher_u1
              (snd (createClass tutored_class with_teacher_u1))
              (mkClass "class-1" "Grade 7 Blue" (of_nat 30) ACTIVE None "g1" "campus1"
                 None None [mkTeacherClass "tp1" true ACTIVE])
              (mkTeacherProfile "tp1" "u1"))
    as (classes & Hrun & Hin).
  - reflexivity.
  - apply list_elem_of_here.
  - reflexivity.
  - reflexivity.
  - eexists _, _, classes. split; [reflexivity|]. split; [exact Hrun|exact Hin].
Defined.

Lemma filter_all {A} (l : list A) : filter (λ _, true = true) l = l.
Proof.
  induction l as [|x l IH]; [done|]. rewrite filter_cons_True by done. by rewrite IH.
Qed.

(** X10. With a session, [list] returns every class of the store, whatever
    its status, and leaves the store as it is; in particular it returns every
    class that [searchClasses] returns for any request. *)
Theorem list_returns_all (session : Session) (w : World) :
  list_classes (Some session) w = (inr (rows (prisma w)), w)
  ∧ ∀ name_le input classes w',
      searchClasses name_le input w = (inr classes, w') →
      ∀ c, c ∈ classes → c ∈ rows (prisma w).
Proof.
  split.
  - unfold list_classes, await, try_catch, resolve, class_findMany, query. cbn.
    by rewrite filter_all.
  - intros name_le input classes w'. rewrite searchClasses_run.
    intros [= <- <-] c Hc. by apply searchClasses_elem in Hc as [? _].
Qed.

Lemma list_returns_all_witness :
  list_classes (Some (mkSession None)) three_classes
  = (inr (rows (prisma three_classes)), three_classes)
  ∧ ∀ c, c ∈ order_by_name String.leb
               (filter (λ c, matches (searchClasses_where no_filters) c = true)
                       (rows (prisma three_classes)))
         → c ∈ rows (prisma three_classes).
Proof.
  destruct (list_returns_all (mkSession None) three_classes) as [Hlist Hall].
  split; [exact Hlist|].
  apply (Hall String.leb no_filters _ three_classes). reflexivity.
Defined.

(** ** More on searching *)

Lemma opt_holds_spec {A} (o : option A) (p : A → bool) :
  opt_holds o p = true ↔ ∀ a, o = Some a → p a = true.
Proof.
  destruct o as [a|]; cbn.
  - split; [by intros ? ? [= <-]|eauto].
  - split; [by intros|done].
Qed.

Lemma matches_spec (q : ClassWhere) (c : Class) :
  matches q c = true
  ↔ (∀ s, where_status q = Some s → class_status c = s)
    ∧ (∀ s, where_name_contains_insensitive q = Some s →
            ∃ left right, lower (class_name c) = left +:+ lower s +:+ right)
    ∧ (∀ g, where_classGroupId q = Some g → classGroupId c = g)
    ∧ (∀ t, where_teachers_some_teacherId q = Some t →
            ∃ tc, tc ∈ teachers c ∧ teacherId tc = t)
    ∧ (∀ i, where_campus_id q = Some i → campusId c = i).
Proof.
  unfold matches. rewrite !andb_true_iff, !opt_holds_spec.
  assert (Hteacher : ∀ t,
    existsb (λ tc, bool_decide (teacherId tc = t)) (teachers c) = true
    ↔ ∃ tc, tc ∈ teachers c ∧ teacherId tc = t).
  { intros t. rewrite existsb_exists. split.
    - intros (tc & Htc & Heq). exists tc. split; [by apply list_elem_of_In|].
      by apply bool_decide_eq_true in Heq.
    - intros (tc & Htc & Heq). exists tc. split; [by apply list_elem_of_In|].
      by apply bool_decide_eq_true. }
  split.
  - intros ((((Hs & Hn) & Hg) & Ht) & Hc). repeat split.
    + intros s Hq. specialize (Hs s Hq). by apply bool_decide_eq_true in Hs.
    + intros s Hq. apply contains_spec. by apply Hn.
    + intros g Hq. specialize (Hg g Hq). by apply bool_decide_eq_true in Hg.
    + intros t Hq. by apply Hteacher, Ht.
    + intros i Hq. specialize (Hc i Hq). by apply bool_decide_eq_true in Hc.
  - intros (Hs & Hn & Hg & Ht & Hc). repeat split.
    + intros s Hq. apply bool_decide_eq_true. by apply Hs.
    + intros s Hq. apply contains_spec. by apply Hn.
    + intros g Hq. apply bool_decide_eq_true. by apply Hg.
    + intros t Hq. by apply Hteacher, Ht.
    + intros i Hq. apply bool_decide_eq_true. by apply Hc.
Qed.

Lemma occurs_lower (s name : string) :
  (∃ left right, lower name = left +:+ lower s +:+ right)
  ↔ occurs_ignoring_case s name.
Proof.
  rewrite <- contains_insensitive_spec. unfold contains_insensitive.
  by rewrite contains_spec.
Qed.

(** X12. [searchClasses] returns exactly the classes of the store that
    have the requested status, [ACTIVE] when none is requested, and that pass
    every non-empty filter of the request: the name has a substring equal to
    the search string up to the case of the letters, the class group and the
    campus are the requested ones, and the requested teacher is among the
    teachers. *)
Theorem searchClasses_filters (name_le : string → string → bool)
    (input : SearchClassesInput) (w : World) :
  ∃ classes,
    searchClasses name_le input w = (inr classes, w)
    ∧ ∀ c,
        c ∈ classes
        ↔ c ∈ rows (prisma w)
          ∧ class_status c = default ACTIVE (sc_status input)
          ∧ (∀ s, sc_search input = Some s → s ≠ "" →
                  occurs_ignoring_case s (class_name c))
          ∧ (∀ g, sc_classGroupId input = Some g → g ≠ "" → classGroupId c = g)
          ∧ (∀ t, sc_teacherId input = Some t → t ≠ "" →
                  ∃ tc, tc ∈ teachers c ∧ teacherId tc = t)
          ∧ (∀ i, sc_campusId input = Some i → i ≠ "" → campusId c = i).
Proof.
  eexists. split; [apply searchClasses_run|]. intros c.
  rewrite searchClasses_elem, matches_spec.
  cbn [searchClasses_where where_status where_name_contains_insensitive
       where_classGroupId where_teachers_some_teacherId where_campus_id].
  assert (Hspread : ∀ (o : option string) (P : string → Prop),
    (∀ s, spread_if o = Some s → P s) ↔ (∀ s, o = Some s → s ≠ "" → P s)).
  { intros o P. destruct o as [s0|]; cbn; [|by split; intros].
    unfold truthy. destruct (decide (s0 = "")) as [->|Hne].
    - rewrite bool_decide_eq_true_2 by done. cbn.
      split; [by intros _ s [= <-] ?|by intros].
    - rewrite bool_decide_eq_false_2 by done. cbn. split.
      + intros H s [= <-] _. by apply H.
      + intros H s [= <-]. by apply H. }
  rewrite !Hspread.
  assert (Hname :
    (∀ s, sc_search input = Some s → s ≠ "" →
          ∃ left right, lower (class_name c) = left +:+ lower s +:+ right)
    ↔ (∀ s, sc_search input = Some s → s ≠ "" →
            occurs_ignoring_case s (class_name c))).
  { split; intros H s Hs Hne; apply occurs_lower; by apply H. }
  rewrite Hname. split.
  - intros (Hc & Hs & Hrest). split; [done|]. split; [by apply Hs|]. exact Hrest.
  - intros (Hc & Hs & Hrest). split; [done|]. split; [by intros s [= <-]|].
    exact Hrest.
Qed.

Lemma searchClasses_filters_witness :
  ∃ classes,
    searchClasses String.leb
      (mkSearchClassesInput None (Some "gRADE 8") None (Some INACTIVE) None)
      three_classes
    = (inr classes, three_classes)
    ∧ ∀ c, c ∈ classes ↔ c = class_row "k2" "Grade 8 Red" INACTIVE.
Proof.
  destruct (searchClasses_filters String.leb
              (mkSearchClassesInput None (Some "gRADE 8") None (Some INACTIVE) None)
              three_classes)
    as (classes & Hrun & Hiff).
  exists classes. split; [exact Hrun|]. intros c. rewrite Hiff. split.
  - intros (Hrow & Hstatus & _). apply rows_elem in Hrow as (k & Hk).
    cbn in Hstatus. cbn in Hk.
    repeat (apply lookup_insert_Some in Hk as [[_ <-]|[_ Hk]];
            [first [reflexivity|discriminate Hstatus]|]).
    by rewrite lookup_empty in Hk.
  - intros ->. split; [apply rows_elem; exists "k2"; reflexivity|].
    split; [reflexivity|]. repeat split; try discriminate.
    intros s [= <-] _. exists "", "Grade 8", " Red". split; [reflexivity|].
    cbn [equal_ignoring_case].
    repeat split; try (left; reflexivity).
    + right. exists 71%nat. split; [lia|]. left. split; reflexivity.
    + right. exists 82%nat. split; [lia|]. right. split; reflexivity.
    + right. exists 65%nat. split; [lia|]. right. split; reflexivity.
    + right. exists 68%nat. split; [lia|]. right. split; reflexivity.
    + right. exists 69%nat. split; [lia|]. right. split; reflexivity.
Defined.

Lemma spread_if_idemp (o : option string) : spread_if (spread_if o) = spread_if o.
Proof.
  destruct o as [s|]; cbn; [|done]. destruct (truthy s) eqn:Hs; cbn; [|done].
  by rewrite Hs.
Qed.

(** X13. An empty string in [search], [classGroupId], [teacherId] or
    [campusId] is no filter: the request gives what the request without it
    gives. *)
Theorem searchClasses_blank_filters (name_le : string → string → bool)
    (input : SearchClassesInput) (w : World) :
  searchClasses name_le input w = searchClasses name_le (without_blanks input) w
  ∧ searchClasses name_le (mkSearchClassesInput (Some "") (Some "") (Some "")
                             (sc_status input) (Some "")) w
    = searchClasses name_le (mkSearchClassesInput None None None (sc_status input) None) w.
Proof.
  split; [|reflexivity]. rewrite !searchClasses_run.
  unfold searchClasses_where, without_blanks. cbn. by rewrite !spread_if_idemp.
Qed.

(** ** The [search] procedure *)

Lemma search_run (input : SearchInput) (w : World) :
  search input w
  = (inr (filter (λ c, matches (search_where input) c = true) (rows (prisma w))), w).
Proof. reflexivity. Qed.

(** X14. [search] has no default status: without filters it returns every
    class of the store, whatever its status, where [searchClasses] returns
    the [ACTIVE] ones only. It applies the status, class group and teacher
    filters as they come, an empty class group id included, and ignores only
    an empty search string. *)
Theorem search_filters (input : SearchInput) (w : World) :
  search (mkSearchInput None None None None) w = (inr (rows (prisma w)), w)
  ∧ ∃ classes,
      search input w = (inr classes, w)
      ∧ ∀ c,
          c ∈ classes
          ↔ c ∈ rows (prisma w)
            ∧ (∀ s, s_status input = Some s → class_status c = s)
            ∧ (∀ s, s_search input = Some s → s ≠ "" →
                    ∃ left right, lower (class_name c) = left +:+ lower s +:+ right)
            ∧ (∀ g, s_classGroupId input = Some g → classGroupId c = g)
            ∧ (∀ t, s_teachers_some_teacherId input = Some t →
                    ∃ tc, tc ∈ teachers c ∧ teacherId tc = t).
Proof.
  split.
  - rewrite search_run. do 2 f_equal.
    induction (rows (prisma w)) as [|c l IH]; [done|].
    rewrite filter_cons_True by done. by rewrite IH.
  - eexists. split; [apply search_run|]. intros c.
    rewrite list_elem_of_filter, matches_spec.
    cbn [search_where where_status where_name_contains_insensitive
         where_classGroupId where_teachers_some_teacherId where_campus_id].
    assert (Hsearch :
      (∀ s, spread_if (s_search input) = Some s →
            ∃ left right, lower (class_name c) = left +:+ lower s +:+ right)
      ↔ (∀ s, s_search input = Some s → s ≠ "" →
              ∃ left right, lower (class_name c) = left +:+ lower s +:+ right)).
    { destruct (s_search input) as [s0|]; cbn; [|by split; intros].
      unfold truthy. destruct (decide (s0 = "")) as [->|Hne].
      - rewrite bool_decide_eq_true_2 by done. cbn.
        split; [by intros _ s [= <-] ?|by intros].
      - rewrite bool_decide_eq_false_2 by done. cbn. split.
        + intros H s [= <-] _. by apply H.
        + intros H s [= <-]. by apply H. }
    rewrite Hsearch. split.
    + intros ((Hs & Hn & Hg & Ht & _) & Hc). auto.
    + intros (Hc & Hs & Hn & Hg & Ht). repeat split; try done. 
Qed.

Lemma search_filters_witness :
  ∃ classes,
    search (mkSearchInput None None (Some "") None) three_classes
    = (inr classes, three_classes)
    ∧ ∀ c, c ∈ classes → classGroupId c = "".
Proof.
  destruct (search_filters (mkSearchInput None None (Some "") None) three_classes)
    as (_ & classes & Hrun & Hiff).
  exists classes. split; [exact Hrun|]. intros c Hc.
  apply Hiff in Hc as (_ & _ & _ & Hgroup & _). by apply Hgroup.
Defined.

(** ** The data points of the performance trend *)

(** X16. [getPerformanceTrends] returns one data point per activity, in
    the order of the activities, dated with the UTC day the activity was
    created. Its [averageScore] is the mean percentage of the activity's
    submissions in double arithmetic: the sum from 0 of obtained marks (0
    when missing) over total marks (1 when missing or zero) times 100,
    divided by the number of submissions, and 0 for an activity without
    submissions. *)
Theorem getPerformanceTrends_data (input : RangeInput) (w : World) :
  ∃ result,
    getPerformanceTrends input w = (inr result, w)
    ∧ pt_data result
      = map (λ a, {| pp_date := dateKey (act_createdAt a);
                     pp_averageScore :=
                       match submissions a with
                       | [] => 0%float
                       | subs => (sum (map marks_percent subs)
                                  / integer (length subs))%float
                       end |})
            (activities_of input (prisma w)).
Proof.
  eexists. split; [apply getPerformanceTrends_run|].
  cbn [pt_data]. unfold performanceData. apply map_ext. intros a.
  rewrite activityAverage_mean. unfold activity_mean, mean.
  rewrite length_map. by destruct (submissions a).
Qed.

Open Scope Qc_scope.

(** ** Student growth on stored ids *)

(** X17. [studentGrowth] is 0 whenever every returned record has a
    non-empty id, whatever the number of records, and it is never anything
    but -100, 0 or 100. *)
Theorem getHistoricalAnalytics_growth_values (input : RangeInput) (w : World) :
  ∃ result,
    getHistoricalAnalytics input w = (inr result, w)
    ∧ ((∀ s, s ∈ historicalData result → sp_id s ≠ "") →
       ha_studentGrowth result = 0)
    ∧ (ha_studentGrowth result = 0
       ∨ ha_studentGrowth result = hundred
       ∨ ha_studentGrowth result = - hundred).
Proof.
  eexists. split; [apply getHistoricalAnalytics_run|].
  cbn [historicalData ha_studentGrowth].
  set (students := historicalStudents_of input (prisma w)).
  assert (Hshape : (length students ≤ 1)%nat
                   ∨ ∃ first middle final, students = first :: middle ++ [final]).
  { destruct students as [|first rest]; [left; cbn; lia|].
    destruct rest as [|second rest] using rev_ind; [left; cbn; lia|].
    right. by exists first, rest, second. }
  destruct Hshape as [Hshort|(first & middle & final & ->)].
  - rewrite (studentGrowth_short _ Hshort). auto.
  - rewrite studentGrowth_ends. unfold presence, truthy. split.
    + intros Hids.
      rewrite !bool_decide_eq_false_2.
      * cbn. ring.
      * apply Hids, list_elem_of_here.
      * apply Hids, list_elem_of_further, elem_of_app. right. apply list_elem_of_here.
    + destruct (bool_decide (sp_id final = "")), (bool_decide (sp_id first = ""));
        cbn; [left|right; right|right; left|left]; ring.
Qed.

Lemma getHistoricalAnalytics_growth_values_witness :
  ∃ result,
    getHistoricalAnalytics february_2025
      (with_attendance four_students []) = (inr result, with_attendance four_students [])
    ∧ length (historicalData result) = 4%nat
    ∧ ha_studentGrowth result = 0.
Proof.
  destruct (getHistoricalAnalytics_growth_values february_2025
              (with_attendance four_students []))
    as (result & Hrun & Hzero & _).
  exists result. split; [exact Hrun|].
  injection Hrun as <-. split; [reflexivity|].
  apply Hzero. intros s Hs. cbn in Hs.
  repeat (apply elem_of_cons in Hs as [->|Hs]; [discriminate|]).
  by apply elem_of_nil in Hs.
Defined.

(** ** The two variants of the page *)

(** X19. The two variants of [EditTeacherPage] render the same view but
    for the form's initial values: "Invalid teacher ID" for an empty id
    whatever was fetched, else the error text with the error's message
    ("Unknown error" for a thrown value that is no error) when the joint fetch
    fails, else "Teacher not found" for a [null] teacher, else the form with
    the same id, subjects and classes. *)
Theorem EditTeacherPage_variants_agree {S C : Type} (params : Page.Params)
    (fetched : Result (option Page.Teacher * list S * list C)) :
  outline (Page.EditTeacherPage params fetched)
  = outline (Page.EditTeacherPage_1 params fetched)
  ∧ outline (Page.EditTeacherPage params fetched)
    = if negb (truthy (Page.id params)) then Page.InvalidTeacherId
      else match fetched with
           | inl error =>
               Page.ErrorLoading
                 ("Error loading teacher data: " +:+ message_or "Unknown error" error)
           | inr (None, _, _) => Page.TeacherNotFound
           | inr (Some _, subjects, classes) =>
               Page.TeacherForm (Page.id params) tt subjects classes
           end.
Proof.
  unfold Page.EditTeacherPage, Page.EditTeacherPage_1, Page.error_view.
  destruct (negb (truthy (Page.id params))); [done|].
  destruct fetched as [error|[[[teacher|] subjects] classes]]; done.
Qed.

(** ** Calendar days *)

Lemma digit_inj (n m : nat) : digit n = digit m → n mod 10 = m mod 10.
Proof.
  intros Heq. apply (f_equal nat_of_ascii) in Heq. rewrite !digit_code in Heq. lia.
Qed.

Lemma div_100 (k : nat) : (k / 100 = k / 10 / 10)%nat.
Proof. by rewrite Nat.Div0.div_div. Qed.

Lemma div_1000 (k : nat) : (k / 1000 = k / 10 / 10 / 10)%nat.
Proof. by rewrite !Nat.Div0.div_div. Qed.

Lemma pad2_inj (n m : nat) : (n < 100)%nat → (m < 100)%nat → pad2 n = pad2 m → n = m.
Proof.
  intros Hn Hm [= H1%digit_inj H0%digit_inj]. fold_div.
  decimal_step n. decimal_step (n / 10)%nat.
  decimal_step m. decimal_step (m / 10)%nat. lia.
Qed.

Lemma pad4_inj (n m : nat) :
  (Z.of_nat n < 10000)%Z → (Z.of_nat m < 10000)%Z → pad4 n = pad4 m → n = m.
Proof.
  intros Hn Hm [= H3%digit_inj H2%digit_inj H1%digit_inj H0%digit_inj]. fold_div.
  rewrite ?div_1000, ?div_100 in *.
  decimal_step n. decimal_step (n / 10)%nat. decimal_step (n / 10 / 10)%nat.
  decimal_step (n / 10 / 10 / 10)%nat.
  decimal_step m. decimal_step (m / 10)%nat. decimal_step (m / 10 / 10)%nat.
  decimal_step (m / 10 / 10 / 10)%nat. lia.
Qed.

Lemma pad6_inj (n m : nat) :
  (Z.of_nat n < 1000000)%Z → (Z.of_nat m < 1000000)%Z → pad6 n = pad6 m → n = m.
Proof.
  intros Hn Hm
    [= H5%digit_inj H4%digit_inj H3%digit_inj H2%digit_inj H1%digit_inj H0%digit_inj].
  fold_div. rewrite ?div_1000, ?div_100 in *.
  decimal_step n. decimal_step (n / 10)%nat. decimal_step (n / 10 / 10)%nat.
  decimal_step (n / 10 / 10 / 10)%nat. decimal_step (n / 10 / 10 / 10 / 10)%nat.
  decimal_step (n / 10 / 10 / 10 / 10 / 10)%nat.
  decimal_step m. decimal_step (m / 10)%nat. decimal_step (m / 10 / 10)%nat.
  decimal_step (m / 10 / 10 / 10)%nat. decimal_step (m / 10 / 10 / 10 / 10)%nat.
  decimal_step (m / 10 / 10 / 10 / 10 / 10)%nat. lia.
Qed.

Lemma pad2_app (n m : nat) (s t : string) :
  pad2 n +:+ s = pad2 m +:+ t → pad2 n = pad2 m ∧ s = t.
Proof.
  unfold pad2. lazy beta iota delta [String.append].
  intros [= H1 H0 Hrest]. split; [|exact Hrest].
  f_equal; [exact H1|]. f_equal. exact H0.
Qed.

Lemma pad4_app (n m : nat) (s t : string) :
  pad4 n +:+ s = pad4 m +:+ t → pad4 n = pad4 m ∧ s = t.
Proof.
  unfold pad4, pad3, pad2. lazy beta iota delta [String.append].
  intros [= H3 H2 H1 H0 Hrest]. split; [|exact Hrest].
  f_equal; [exact H3|]. f_equal; [exact H2|]. f_equal; [exact H1|].
  f_equal. exact H0.
Qed.

Lemma pad6_app (n m : nat) (s t : string) :
  pad6 n +:+ s = pad6 m +:+ t → pad6 n = pad6 m ∧ s = t.
Proof.
  unfold pad6, pad4, pad3, pad2. lazy beta iota delta [String.append].
  intros [= H5 H4 H3 H2 H1 H0 Hrest]. split; [|exact Hrest].
  f_equal; [exact H5|]. f_equal; [exact H4|]. f_equal; [exact H3|].
  f_equal; [exact H2|]. f_equal; [exact H1|]. f_equal. exact H0.
Qed.

Lemma String_inj (c c' : ascii) (r r' : string) :
  String c r = String c' r' → c = c' ∧ r = r'.
Proof. by intros [= -> ->]. Qed.

(** The year is read back from its printed form. *)
Lemma isoYear_app (y1 y2 : Z) (s t : string) :
  (-1000000 < y1 < 1000000)%Z → (-1000000 < y2 < 1000000)%Z →
  isoYear y1 +:+ s = isoYear y2 +:+ t → y1 = y2 ∧ s = t.
Proof.
  intros Hy1 Hy2. unfold isoYear.
  destruct ((0 <=? y1)%Z && (y1 <=? 9999)%Z) eqn:H1;
    destruct ((0 <=? y2)%Z && (y2 <=? 9999)%Z) eqn:H2.
  - intros [Hpad ->]%pad4_app. split; [|done].
    apply andb_true_iff in H1 as [?%Z.leb_le ?%Z.leb_le].
    apply andb_true_iff in H2 as [?%Z.leb_le ?%Z.leb_le].
    apply pad4_inj in Hpad; lia.
  - unfold pad4. change (String ?c ?r +:+ s) with (String c (r +:+ s)).
    change (String ?c ?r +:+ t) with (String c (r +:+ t)).
    intros [Hc _]%String_inj. exfalso. revert Hc. apply digit_not.
    destruct (y2 <? 0)%Z; vm_compute; lia.
  - unfold pad4. change (String ?c ?r +:+ s) with (String c (r +:+ s)).
    change (String ?c ?r +:+ t) with (String c (r +:+ t)).
    intros [Hc _]%String_inj. exfalso. symmetry in Hc. revert Hc. apply digit_not.
    destruct (y1 <? 0)%Z; vm_compute; lia.
  - change (String ?c ?r +:+ s) with (String c (r +:+ s)).
    change (String ?c ?r +:+ t) with (String c (r +:+ t)).
    intros [Hsign Hrest]%String_inj. apply pad6_app in Hrest as [Hpad ->].
    split; [|done].
    apply pad6_inj in Hpad; [|lia|lia].
    destruct (y1 <? 0)%Z eqn:Hn1, (y2 <? 0)%Z eqn:Hn2; try discriminate Hsign;
      try apply Z.ltb_lt in Hn1; try apply Z.ltb_lt in Hn2;
      try apply Z.ltb_ge in Hn1; try apply Z.ltb_ge in Hn2; lia.
Qed.

(** X20. Two records fall into the same group exactly when their dates
    lie on the same UTC calendar day: the key keeps the year, the month and
    the day of the month and nothing of the time of day. *)
Theorem dateKey_same_day (a b : Date) :
  calendar_fields a → calendar_fields b →
  dateKey a = dateKey b ↔ same_day a b.
Proof.
  intros (Hya & Hma & Hda) (Hyb & Hmb & Hdb). rewrite !dateKey_isoDay.
  unfold isoDay, same_day. split.
  - intros Heq. apply isoYear_app in Heq as [Hyear Heq]; [|lia|lia].
    apply (String_inj "-" "-") in Heq as [_ Heq].
    apply pad2_app in Heq as [Hmonth Heq].
    apply pad2_inj in Hmonth; [|lia|lia].
    apply (String_inj "-" "-") in Heq as [_ Heq]. apply pad2_inj in Heq; [|lia|lia].
    split; [done|]. split; [lia|done].
  - by intros (-> & -> & ->).
Qed.

Lemma dateKey_same_day_witness :
  dateKey (mkDate 2025 1 24 0 0 0 0) = dateKey (mkDate 2025 1 24 23 59 59 999).
Proof.
  apply dateKey_same_day.
  - unfold calendar_fields. cbn. lia.
  - unfold calendar_fields. cbn. lia.
  - by unfold same_day.
Defined.
